(** * Verification of the road_to_billions backtesting engine.

    Shallow embedding of the position simulators of
    [src/wayne/strategy.py] (module [Wayne]) and of
    [src/src/road_to_billions/strategy.py] (module [RoadToBillions]),
    of [InvestResult] ([src/wayne/models.py]) and of the ranking done by
    [evaluate_symbols] ([src/wayne/wayne.py]).

    Python floats are modelled by exact rationals [Q]; the decimal
    constants of the code ([0.999], [0.001]) are the same decimals in [Q].
    A pandas row is a record [Row]; a data frame iterated with [iterrows]
    is a [list Row], whose index is the open time. Every Python exception
    that the code can raise on these paths is an [Err] of the small error
    monad [result]: [ZeroDivisionError] for a float division by zero,
    [IndexError] for [iloc] out of range and [ValidationError] for the
    pydantic checks of [InvestResult]. *)

From Stdlib Require Import String QArith Qminmax Lqa ZArith List Bool Lia Sorted Permutation.
Import ListNotations.
Open Scope Q_scope.

(** ** Python runtime *)

Inductive py_error : Type :=
| ZeroDivisionError
| IndexError
| ValidationError.

Inductive result (A : Type) : Type :=
| Ok (a : A)
| Err (e : py_error).
Arguments Ok {A} a.
Arguments Err {A} e.

Definition bind {A B : Type} (m : result A) (f : A -> result B) : result B :=
  match m with
  | Ok a => f a
  | Err e => Err e
  end.

Notation "x <- m ;; k" := (bind m (fun x => k))
  (at level 61, m at next level, right associativity).

(** Float comparisons of Python. *)
Definition py_lt (a b : Q) : bool := negb (Qle_bool b a).
Definition py_le (a b : Q) : bool := Qle_bool a b.
Definition py_eq (a b : Q) : bool := Qeq_bool a b.

(** [max(a, b)] keeps its first argument unless the second is strictly
    greater. *)
Definition py_max (a b : Q) : Q := if py_lt a b then b else a.

(** [a / b] raises [ZeroDivisionError] when [b == 0.]. *)
Definition py_div (a b : Q) : result Q :=
  if py_eq b 0 then Err ZeroDivisionError else Ok (a / b).

(** Monadic left fold: a [for] loop over the rows whose body may raise. *)
Fixpoint foldM {S R : Type} (step : S -> R -> result S) (s : S) (rows : list R)
  : result S :=
  match rows with
  | [] => Ok s
  | r :: rs => s' <- step s r ;; foldM step s' rs
  end.

(** The states reached after each row of the loop, in order. *)
Fixpoint trace {S R : Type} (step : S -> R -> result S) (s : S) (rows : list R)
  : result (list S) :=
  match rows with
  | [] => Ok []
  | r :: rs => s' <- step s r ;; l <- trace step s' rs ;; Ok (s' :: l)
  end.

(** ** Data model *)

(** A pandas row of a kline data frame. The open time is the index
    ([row.name]); [Buy] and [Sell] are the columns added by the order
    generators (the hourly frame has none: they are never read there). *)
Record Row : Type := mkRow {
  open_time : Z;
  open_price : Q;
  high_price : Q;
  low_price : Q;
  close_price : Q;
  buy : bool;
  sell : bool
}.

(** Prices of a kline are positive. *)
Definition positive_prices (r : Row) : Prop :=
  0 < open_price r /\ 0 < high_price r /\ 0 < low_price r /\ 0 < close_price r.

(** [InvestResult] of [models.py]. *)
Record InvestResult : Type := mkInvestResult {
  capital_start : Q;
  capital_end : Q;
  positions_end : Q;
  drawdown : Q;
  platform_fees : Q;
  capital_curve : list Q
}.

(** The pydantic constructor: [capital_start: PositiveFloat],
    [positions_end: NonNegativeFloat], [drawdown: Between0And1]. *)
Definition InvestResult_new (capital_start capital_end drawdown : Q)
  (capital_curve : list Q) (positions_end platform_fees : Q)
  : result InvestResult :=
  if py_lt 0 capital_start && py_le 0 positions_end
     && py_le 0 drawdown && py_le drawdown 1
  then Ok (mkInvestResult capital_start capital_end positions_end drawdown
             platform_fees capital_curve)
  else Err ValidationError.

Definition profit (r : InvestResult) : Q := capital_end r - capital_start r.

(** [self._data.iloc[0]] and [self._data.iloc[-1]]. *)
Definition iloc_first (data : list Row) : result Row :=
  match data with
  | [] => Err IndexError
  | r :: _ => Ok r
  end.

Definition iloc_last (data : list Row) : result Row :=
  match rev data with
  | [] => Err IndexError
  | r :: _ => Ok r
  end.

(** ** [NoStrategy.apply]

    The method is the same text in both files. The loop does not touch
    [capital], [positions] nor [platform_fees]; they are kept in the loop
    state as the local variables they are. *)
Module NoStrategy.

Record State : Type := mkState {
  capital : Q;
  platform_fees : Q;
  peak : Q;
  positions : Q;
  drawdown : Q;
  capital_curve : list Q
}.

Definition loop_body (s : State) (row : Row) : result State :=
  let current_capital := positions s * close_price row in
  let peak' := py_max current_capital (peak s) in
  current_drawdown <- py_div (peak' - current_capital) peak' ;;
  Ok (mkState (capital s) (platform_fees s) peak' (positions s)
         (py_max current_drawdown (drawdown s))
         (capital_curve s ++ [current_capital])).

(** Everything before the loop: the forced entry at the first close. *)
Definition enter (data : list Row) (capital_start : Q) : result State :=
  let capital := capital_start in
  let platform_fees := 0 in
  let peak := capital in
  let drawdown := 0 in
  first <- iloc_first data ;;
  let entry_price := close_price first in
  positions <- py_div capital entry_price ;;
  let platform_fees := platform_fees + positions * entry_price * 0.001 in
  let positions := positions * 0.999 in
  Ok (mkState capital platform_fees peak positions drawdown []).

Definition apply (data : list Row) (capital_start : Q) : result InvestResult :=
  s0 <- enter data capital_start ;;
  s <- foldM loop_body s0 data ;;
  last <- iloc_last data ;;
  let output_price := close_price last in
  let capital := positions s * output_price in
  let platform_fees := platform_fees s + capital * 0.001 in
  let capital := capital * 0.999 in
  InvestResult_new capital_start capital (drawdown s) (capital_curve s)
    (positions s) platform_fees.

End NoStrategy.

(** ** [SimpleStrategy.apply]

    Both files have it; they differ only in the exit test: [not row["Buy"]]
    in [wayne/strategy.py], [row["Sell"]] in [road_to_billions/strategy.py]. *)
Module Simple.

Record State : Type := mkState {
  capital : Q;
  current_capital : Q;
  platform_fees : Q;
  peak : Q;
  positions : Q;
  drawdown : Q;
  capital_curve : list Q
}.

Section WithExit.
Variable exit_signal : Row -> bool.

(** The [if positions == 0. ... elif ...] part of the loop body. *)
Definition trade (s : State) (row : Row) : result State :=
  if py_eq (positions s) 0 then
    if buy row && py_lt 0 (capital s) then
      let entry_price := close_price row in
      positions <- py_div (capital s) entry_price ;;
      let platform_fees := platform_fees s + positions * entry_price * 0.001 in
      let positions := positions * 0.999 in
      Ok (mkState 0 (current_capital s) platform_fees (peak s) positions
             (drawdown s) (capital_curve s))
    else Ok s
  else if exit_signal row then
    let capital := positions s * close_price row in
    let platform_fees := platform_fees s + capital * 0.001 in
    let capital := capital * 0.999 in
    Ok (mkState capital (current_capital s) platform_fees (peak s) 0
           (drawdown s) (capital_curve s))
  else Ok s.

(** The mark-to-market, peak and drawdown bookkeeping ending the body. *)
Definition record (s : State) (row : Row) : result State :=
  let current_capital :=
    if py_eq (positions s) 0 then capital s else positions s * close_price row in
  let peak := py_max current_capital (peak s) in
  current_drawdown <- py_div (peak - current_capital) peak ;;
  Ok (mkState (capital s) current_capital (platform_fees s) peak (positions s)
         (py_max current_drawdown (drawdown s))
         (capital_curve s ++ [current_capital])).

Definition step (s : State) (row : Row) : result State :=
  s' <- trade s row ;; record s' row.

Definition init (capital_start : Q) : State :=
  mkState capital_start capital_start 0 capital_start 0 0 [].

Definition apply (data : list Row) (capital_start : Q) : result InvestResult :=
  s <- foldM step (init capital_start) data ;;
  InvestResult_new capital_start (current_capital s) (drawdown s)
    (capital_curve s) (positions s) (platform_fees s).

End WithExit.
End Simple.

(** ** [src/wayne/strategy.py] *)
Module Wayne.

(** [TrailingStopStrategy.apply]: single resolution, intrabar stop. *)
Module Trailing.

Record State : Type := mkState {
  capital : Q;
  current_capital : Q;
  platform_fees : Q;
  peak : Q;
  positions : Q;
  drawdown : Q;
  stop_loss : Q;
  trailing_stop : Q;
  capital_curve : list Q
}.

Section WithParams.
(** [kwargs["stop_loss_pct"]] and [kwargs["trailing_stop_pct"]]. *)
Variables stop_loss_pct trailing_stop_pct : Q.

(** The [if positions == 0. ... elif ... elif ...] chain of the body. *)
Definition trade (s : State) (row : Row) : result State :=
  if py_eq (positions s) 0 then
    if buy row && py_lt 0 (capital s) then
      let entry_price := close_price row in
      positions <- py_div (capital s) entry_price ;;
      let platform_fees := platform_fees s + positions * entry_price * 0.001 in
      let positions := positions * 0.999 in
      let stop_loss := entry_price * (1 - stop_loss_pct) in
      let trailing_stop := entry_price * (1 + trailing_stop_pct) in
      Ok (mkState 0 (current_capital s) platform_fees (peak s) positions
             (drawdown s) stop_loss trailing_stop (capital_curve s))
    else Ok s
  else if py_lt (trailing_stop s) (high_price row) then
    let entry_price := high_price row in
    let stop_loss := entry_price * (1 - stop_loss_pct) in
    let trailing_stop := entry_price * (1 + trailing_stop_pct) in
    Ok (mkState (capital s) (current_capital s) (platform_fees s) (peak s)
           (positions s) (drawdown s) stop_loss trailing_stop (capital_curve s))
  else if py_lt (low_price row) (stop_loss s) then
    let capital := positions s * stop_loss s in
    let platform_fees := platform_fees s + capital * 0.001 in
    let capital := capital * 0.999 in
    Ok (mkState capital (current_capital s) platform_fees (peak s) 0
           (drawdown s) (stop_loss s) (trailing_stop s) (capital_curve s))
  else Ok s.

Definition record (s : State) (row : Row) : result State :=
  let current_capital :=
    if py_eq (positions s) 0 then capital s else positions s * close_price row in
  let peak := py_max current_capital (peak s) in
  current_drawdown <- py_div (peak - current_capital) peak ;;
  Ok (mkState (capital s) current_capital (platform_fees s) peak (positions s)
         (py_max current_drawdown (drawdown s)) (stop_loss s) (trailing_stop s)
         (capital_curve s ++ [current_capital])).

Definition step (s : State) (row : Row) : result State :=
  s' <- trade s row ;; record s' row.

Definition init (capital_start : Q) : State :=
  mkState capital_start capital_start 0 capital_start 0 0 0 0 [].

Definition apply (data : list Row) (capital_start : Q) : result InvestResult :=
  s <- foldM step (init capital_start) data ;;
  InvestResult_new capital_start (current_capital s) (drawdown s)
    (capital_curve s) (positions s) (platform_fees s).

End WithParams.
End Trailing.

(** [SimpleStrategy.apply]: leaves as soon as [Buy] is false. *)
Definition simple_exit (row : Row) : bool := negb (buy row).

Definition simple_apply := Simple.apply simple_exit.

Definition no_apply := NoStrategy.apply.

End Wayne.

(** ** [src/src/road_to_billions/strategy.py] *)
Module RoadToBillions.

(** [TrailingStopStrategy.apply]: the loop walks the hourly frame; a
    cursor [day] over the daily frame advances when the hourly index
    equals the index of the daily row under the cursor. *)
Module Dual.

Record State : Type := mkState {
  capital : Q;
  current_capital : Q;
  platform_fees : Q;
  peak : Q;
  positions : Q;
  drawdown : Q;
  stop_loss : Q;
  day : nat;
  capital_curve : list Q
}.

Section WithParams.
(** [kwargs["stop_loss_pct"]]; [trailing_stop_pct] is passed but never
    read by this method. *)
Variable stop_loss_pct : Q.
(** [self._day_data]. *)
Variable day_data : list Row.

(** First [if] of the body: the stop-loss on the hourly row. *)
Definition stop_phase (s : State) (row : Row) : State :=
  if negb (py_eq (positions s) 0) then
    let stop_loss := py_max (stop_loss s) (close_price row * (1 - stop_loss_pct)) in
    if py_lt (close_price row) stop_loss then
      let capital := positions s * stop_loss in
      let platform_fees := platform_fees s + capital * 0.001 in
      let capital := capital * 0.999 in
      mkState capital (current_capital s) platform_fees (peak s) 0 (drawdown s)
        stop_loss (day s) (capital_curve s)
    else
      mkState (capital s) (current_capital s) (platform_fees s) (peak s)
        (positions s) (drawdown s) stop_loss (day s) (capital_curve s)
  else s.

(** Entry on the daily row [day_row], when flat. *)
Definition day_entry (s : State) (day_row : Row) : result State :=
  if py_eq (positions s) 0 then
    if buy day_row && py_lt 0 (capital s) then
      let entry_price := close_price day_row in
      positions <- py_div (capital s) entry_price ;;
      let platform_fees := platform_fees s + positions * entry_price * 0.001 in
      let positions := positions * 0.999 in
      let stop_loss := entry_price * (1 - stop_loss_pct) in
      Ok (mkState 0 (current_capital s) platform_fees (peak s) positions
             (drawdown s) stop_loss (day s) (capital_curve s))
    else Ok s
  else Ok s.

(** Mark-to-market at the daily close, once per matched daily row. *)
Definition day_record (s : State) (day_row : Row) : result State :=
  let current_capital :=
    if py_eq (positions s) 0 then capital s else positions s * close_price day_row in
  let peak := py_max current_capital (peak s) in
  current_drawdown <- py_div (peak - current_capital) peak ;;
  Ok (mkState (capital s) current_capital (platform_fees s) peak (positions s)
         (py_max current_drawdown (drawdown s)) (stop_loss s) (day s)
         (capital_curve s ++ [current_capital])).

Definition incr_day (s : State) : State :=
  mkState (capital s) (current_capital s) (platform_fees s) (peak s)
    (positions s) (drawdown s) (stop_loss s) (S (day s)) (capital_curve s).

(** Second [if] of the body:
    [if day < len(self._day_data) and row.name == self._day_data.iloc[day].name]. *)
Definition day_phase (s : State) (row : Row) : result State :=
  match nth_error day_data (day s) with
  | Some day_row =>
      if Z.eqb (open_time row) (open_time day_row) then
        s1 <- day_entry s day_row ;;
        day_record (incr_day s1) day_row
      else Ok s
  | None => Ok s
  end.

Definition step (s : State) (row : Row) : result State :=
  day_phase (stop_phase s row) row.

Definition init (capital_start : Q) : State :=
  mkState capital_start capital_start 0 capital_start 0 0 0 0 [].

(** The result is built with the literal [drawdown=0]. *)
Definition apply (hour_data : list Row) (capital_start : Q) : result InvestResult :=
  s <- foldM step (init capital_start) hour_data ;;
  InvestResult_new capital_start (current_capital s) 0
    (capital_curve s) (positions s) (platform_fees s).

End WithParams.
End Dual.

(** [SimpleStrategy.apply]: leaves on the [Sell] column. *)
Definition simple_apply := Simple.apply sell.

Definition no_apply := NoStrategy.apply.

End RoadToBillions.

(** ** Ranking of [evaluate_symbols] ([src/wayne/wayne.py])

    [results.sort(key=lambda result: result[1].profit, reverse=True)]:
    Python's [list.sort] is stable, also with [reverse=True], so it orders
    by decreasing profit and keeps the input order among equal profits.
    Modelled by the stable insertion sort that inserts each element after
    every element whose key is not smaller. *)
Module Ranking.

Definition key (e : string * InvestResult) : Q := profit (snd e).

Fixpoint insert_desc (x : string * InvestResult) (l : list (string * InvestResult))
  : list (string * InvestResult) :=
  match l with
  | [] => [x]
  | y :: l' => if py_lt (key y) (key x) then x :: l else y :: insert_desc x l'
  end.

Definition sort_desc (results : list (string * InvestResult))
  : list (string * InvestResult) :=
  fold_left (fun acc x => insert_desc x acc) results [].

End Ranking.

(** ** Matching the daily cursor against the hourly index *)

(** Greedy left-to-right matching of the daily times [ds] against the
    hourly times [hs]: the number of daily rows the cursor passes. *)
Fixpoint greedy (ds hs : list Z) {struct hs} : nat :=
  match ds, hs with
  | [], _ => 0%nat
  | _ :: _, [] => 0%nat
  | d :: ds', h :: hs' => if Z.eqb h d then S (greedy ds' hs') else greedy ds hs'
  end.

(** [ds] occurs, in order, inside [hs]. *)
Inductive Subseq : list Z -> list Z -> Prop :=
| Subseq_nil l : Subseq [] l
| Subseq_skip x l1 l2 : Subseq l1 l2 -> Subseq l1 (x :: l2)
| Subseq_take x l1 l2 : Subseq l1 l2 -> Subseq (x :: l1) (x :: l2).

(** The drawdown as the spec defines it: the running maximum, over the
    capital curve, of [(peak - current) / peak] with the peak starting at
    the starting capital. Used to compare with the returned field. *)
Fixpoint running_drawdown_from (peak dd : Q) (curve : list Q) : Q :=
  match curve with
  | [] => dd
  | c :: rest =>
      let peak' := Qmax peak c in
      running_drawdown_from peak' (Qmax dd ((peak' - c) / peak')) rest
  end.

Definition running_drawdown (capital_start : Q) (curve : list Q) : Q :=
  running_drawdown_from capital_start 0 curve.

(** ** Loop invariants

    The invariant of the claims on cash and positions ([cash_inv]), with
    what the loops need besides it to never divide by zero: a positive
    peak and a drawdown in [0, 1] ([Inv]). *)
Module SimpleInv.
Import Simple.
Definition cash_inv (s : State) : Prop :=
  0 <= positions s /\ 0 <= capital s /\ (0 < positions s -> capital s == 0).

Definition Inv (s : State) : Prop :=
  0 < peak s /\ 0 <= drawdown s <= 1 /\ cash_inv s.

End SimpleInv.

Module TrailingInv.
Import Wayne.Trailing.
Definition cash_inv (s : State) : Prop :=
  0 <= positions s /\ 0 <= capital s /\ (0 < positions s -> capital s == 0).

Definition Inv (s : State) : Prop :=
  0 < peak s /\ 0 <= drawdown s <= 1 /\ cash_inv s.

End TrailingInv.

Module DualInv.
Import RoadToBillions.Dual.
Definition cash_inv (s : State) : Prop :=
  0 <= positions s /\ 0 <= capital s /\ (0 < positions s -> capital s == 0).

Definition Inv (s : State) : Prop :=
  0 < peak s /\ 0 <= drawdown s <= 1 /\ cash_inv s.

End DualInv.

(** In the buy-and-hold loop, positions, capital and fees stay at the
    values set before the loop. *)
Module NoStrategyInv.
Import NoStrategy.
Definition Inv (p0 c0 f0 : Q) (s : State) : Prop :=
  0 < peak s /\ 0 <= drawdown s <= 1 /\ positions s = p0 /\ 0 < p0 /\
  capital s = c0 /\ platform_fees s = f0.

End NoStrategyInv.

(** Order by decreasing profit, and the elements of a given profit. *)
Module RankingOrder.
Import Ranking.
Definition desc (a b : string * InvestResult) : Prop := key b <= key a.

Definition same_profit (q : Q) (e : string * InvestResult) : bool := Qeq_bool (key e) q.

End RankingOrder.

(** ** Concrete inputs used by the examples below *)
Module Samples.

Definition bar (t : Z) (o h l c : Q) (b : bool) : Row := mkRow t o h l c b false.

(** One daily bar with a [Buy] signal, and the hourly bar at its time. *)
Definition one_day : list Row := [bar 0 100 100 100 100 true].

(** A long state of the dual variant after buying at 100 with
    [stop_loss_pct = 0.2], and an hourly bar whose low breaks the stop
    while its close does not. *)
Definition dual_long : RoadToBillions.Dual.State :=
  RoadToBillions.Dual.mkState 0 999 1 1000 9.99 (1 # 1000) 80 1 [999].
Definition dual_dip : Row := bar 3600000 90 90 70 90 false.

(** Daily bars at hours 0, 24, 48; hourly bars for hours 0 to 47 only. *)
Definition hour_ms : Z := 3600000.
Definition three_days : list Row :=
  map (fun h => bar (h * 24 * hour_ms) 100 100 100 100 false) [0; 1; 2]%Z.
Definition hours_to_47 : list Row :=
  map (fun h => bar (Z.of_nat h * hour_ms) 100 100 100 100 false) (seq 0 48).

(** A daily bar whose time has no hourly match. *)
Definition lone_day : list Row := [bar 5 100 100 100 100 true].
Definition lone_hour : list Row := [bar 0 100 100 100 100 false].

(** A long state of the single-resolution trailing stop after buying at
    100 with [stop_loss_pct = 0.2] and [trailing_stop_pct = 0.001]. *)
Definition trailing_long : Wayne.Trailing.State :=
  Wayne.Trailing.mkState 0 999 1 1000 9.99 (1 # 1000) 80 100.1 [999].
(** High above the trigger, low below the stop. *)
Definition wide_bar : Row := bar 86400000 100 110 70 100 false.
(** High below the trigger, low below the stop. *)
Definition dip_bar : Row := bar 86400000 90 100 75 90 false.

(** Entry at close 100, then a bar with low 75 under a high of 100. *)
Definition entry_then_dip : list Row := [bar 0 100 100 100 100 true; dip_bar].

(** Two symbols of equal profit, the later name first. *)
Definition flat_result : InvestResult := mkInvestResult 1000 1000 0 0 0 [1000].
Definition tied_results : list (string * InvestResult) :=
  [("BUSDT"%string, flat_result); ("AUSDT"%string, flat_result)].

End Samples.

(** ** Properties of [InvestResult] ([src/wayne/models.py]) *)
Module Report.

(** [max(l)] of CPython: the first element, replaced by every later one
    that is strictly greater; an empty list raises [ValueError], here
    [None]. *)
Definition py_list_max (l : list Q) : option Q :=
  match l with
  | [] => None
  | x :: rest => Some (fold_left (fun m y => if py_lt m y then y else m) rest x)
  end.

(** [min(l)]: replaced by every later element strictly smaller. *)
Definition py_list_min (l : list Q) : option Q :=
  match l with
  | [] => None
  | x :: rest => Some (fold_left (fun m y => if py_lt y m then y else m) rest x)
  end.

(** [profit_percentage]: [(self.profit / self.capital_start) * 100.]. *)
Definition profit_percentage (r : InvestResult) : result Q :=
  q <- py_div (profit r) (capital_start r) ;; Ok (q * 100).

Definition max (r : InvestResult) : option Q := py_list_max (capital_curve r).

Definition min (r : InvestResult) : option Q := py_list_min (capital_curve r).

(** [capital_structure]: ["liquidity"] when [positions_end == 0.], else
    the two numbers printed by [f"{positions_end:.2f} x
    {capital_end / positions_end:.2f}"] (the rounding to two decimals of
    the display is not modelled). *)
Inductive structure : Type :=
| liquidity
| holding (positions price : Q).

Definition capital_structure (r : InvestResult) : structure :=
  if py_eq (positions_end r) 0 then liquidity
  else holding (positions_end r) (capital_end r / positions_end r).

End Report.

(** ** [evaluate_symbols] ([src/wayne/wayne.py]) *)
Module Evaluate.

(** The fields of [CoinInfo] the function reads. *)
Record CoinInfo : Type := mkCoinInfo {
  coin : string;
  is_legal_money : bool;
  trading : bool
}.

Section WithEarn.
(** [Wayne(coin_name).earn_money(enable_report=False, enable_curves=False)]:
    a backtest on data downloaded for the symbol. *)
Variable earn_money : string -> InvestResult.

Definition eligible (ci : CoinInfo) : bool :=
  negb (is_legal_money ci) && trading ci && negb (String.eqb (coin ci) "USDT").

(** The [for] loop appending [(coin_name, result)] to [results]. *)
Fixpoint collect (coins : list CoinInfo) : list (string * InvestResult) :=
  match coins with
  | [] => []
  | ci :: rest =>
      let coin_name := (coin ci ++ "USDT")%string in
      if eligible ci then (coin_name, earn_money coin_name) :: collect rest
      else collect rest
  end.

(** The rows of the printed table: [results[:5]] after the sort, each
    with its name and profit. *)
Definition table_rows (coins : list CoinInfo) : list (string * Q) :=
  map (fun res => (fst res, profit (snd res)))
    (firstn 5 (Ranking.sort_desc (collect coins))).

End WithEarn.
End Evaluate.

(** ** Download of the hourly klines

    The loop of [Client.get_day_hour_data]
    ([src/src/road_to_billions/bin.py]); [Wayne._get_data] of
    [src/wayne/strategy.py] runs the same loop. A [while] loop may not
    end: [extend_hours] runs at most [fuel] iterations and returns [None]
    when the loop is still running after them. *)
Module Download.

Section WithClient.
(** [self._raw_hour_data(symbol=symbol, start_time=t)]: one page of hourly
    klines from the exchange. *)
Variable raw_hour_data : Z -> list Row.

(** [while kls_day.iloc[-1]["Open time"] > kls_hour.iloc[-1]["Open time"]:
      next_start_time = kls_hour.iloc[-1]["Open time"] + 3600000
      kls_hour = pd.concat([kls_hour, <next page>])] *)
Fixpoint extend_hours (fuel : nat) (kls_day kls_hour : list Row)
  : option (result (list Row)) :=
  match fuel with
  | O => None
  | S fuel' =>
      match (d <- iloc_last kls_day ;; h <- iloc_last kls_hour ;; Ok (d, h)) with
      | Err e => Some (Err e)
      | Ok (d, h) =>
          if Z.ltb (open_time h) (open_time d) then
            let next_start_time := (open_time h + 3600000)%Z in
            extend_hours fuel' kls_day (kls_hour ++ raw_hour_data next_start_time)
          else Some (Ok kls_hour)
      end
  end.

(** [get_day_hour_data] from the daily klines [kls_day] on: the first
    hourly page starts at the oldest daily open time. *)
Definition get_day_hour_data (fuel : nat) (kls_day : list Row)
  : option (result (list Row * list Row)) :=
  match iloc_first kls_day with
  | Err e => Some (Err e)
  | Ok first =>
      let oldest_time := open_time first in
      match extend_hours fuel kls_day (raw_hour_data oldest_time) with
      | Some (Ok kls_hour) => Some (Ok (kls_day, kls_hour))
      | Some (Err e) => Some (Err e)
      | None => None
      end
  end.

End WithClient.
End Download.

(** ** Order generators ([generate] of both files)

    The indicator columns come from the [ta] library; a cell is [None]
    when it is NaN (the warm-up rows of an indicator). pandas compares
    element-wise and a comparison with NaN is False; [&] is the
    element-wise [and]. Below, one row of the generated columns. *)
Module Signals.

Definition nan_gt (a b : option Q) : bool :=
  match a, b with
  | Some x, Some y => py_lt y x
  | _, _ => false
  end.

Definition nan_lt (a b : option Q) : bool :=
  match a, b with
  | Some x, Some y => py_lt x y
  | _, _ => false
  end.

(** [EMARSIBuyOrderGenerator.generate]:
    [Buy = (Close > EMA) & (RSI > rsi_buy_threshold)] and
    [Sell = RSI < rsi_sell_threshold] (the [wayne] version has the [Buy]
    column only, with [rsi_threshold]). *)
Definition ema_rsi_buy (close : Q) (ema rsi : option Q) (rsi_buy_threshold : Q) : bool :=
  nan_gt (Some close) ema && nan_gt rsi (Some rsi_buy_threshold).

Definition ema_rsi_sell (rsi : option Q) (rsi_sell_threshold : Q) : bool :=
  nan_lt rsi (Some rsi_sell_threshold).

(** [MACDBuyOrderGenerator.generate]: [Buy = macd_diff > macd_buy_threshold]
    and [Sell = macd_diff < macd_sell_threshold] ([wayne]: [Buy] only,
    threshold 0). *)
Definition macd_buy (macd_diff : option Q) (macd_buy_threshold : Q) : bool :=
  nan_gt macd_diff (Some macd_buy_threshold).

Definition macd_sell (macd_diff : option Q) (macd_sell_threshold : Q) : bool :=
  nan_lt macd_diff (Some macd_sell_threshold).

End Signals.

(** Inputs of the examples of the further properties. *)
Module ExtraSamples.
Import Samples.

(** Two hourly rows after the daily row [one_day]: the first matches it
    (entry at 100, stop-loss 80), the second closes at 60, under the
    stop-loss, with no daily row left. *)
Definition stale_hours : list Row :=
  [bar 0 100 100 100 100 false; bar 3600000 60 60 60 60 false].

(** An entry at 100, then a day whose high of 110 lifts the stops. *)
Definition ratchet_days : list Row := [bar 0 100 100 100 100 true; wide_bar].

(** Two daily rows two hours apart, and an exchange answering every
    request with the single hourly kline opening at the requested time. *)
Definition two_days : list Row :=
  [bar 0 100 100 100 100 true; bar 7200000 100 100 100 100 false].

Definition hour_page (t : Z) : list Row := [bar t 100 100 100 100 false].

(** Daily rows with [Buy] at hours 0 and 1, and the hourly row of hour 1
    closing at 70: under the stop-loss 80 of [dual_long], whose cursor is
    on the second daily row. *)
Definition reentry_days : list Row :=
  [bar 0 100 100 100 100 true; bar 3600000 70 70 70 70 true].

Definition reentry_bar : Row := bar 3600000 70 70 70 70 false.

(** An exchange that has only the hourly kline at time 0. *)
Definition first_page_only (t : Z) : list Row :=
  if Z.eqb t 0 then [bar 0 100 100 100 100 false] else [].

End ExtraSamples.

(** * Proofs *)

(** ** Python runtime facts *)

Lemma bind_Ok {A B : Type} (m : result A) (f : A -> result B) (b : B) :
  bind m f = Ok b -> exists a, m = Ok a /\ f a = Ok b.
Proof. destruct m as [a|e]; simpl; [eauto | discriminate]. Qed.

Lemma py_eq_true a b : py_eq a b = true <-> a == b.
Proof. apply Qeq_bool_iff. Qed.

Lemma py_eq_false a b : py_eq a b = false <-> ~ a == b.
Proof.
  unfold py_eq; split.
  - intros E H; apply Qeq_bool_iff in H; congruence.
  - intros H; destruct (Qeq_bool a b) eqn:E; [|reflexivity].
    apply Qeq_bool_iff in E; contradiction.
Qed.

Lemma py_lt_true a b : py_lt a b = true <-> a < b.
Proof.
  unfold py_lt; rewrite negb_true_iff; split.
  - intros E; apply Qnot_le_lt; intros H; apply Qle_bool_iff in H; congruence.
  - intros H; destruct (Qle_bool b a) eqn:E; [|reflexivity].
    apply Qle_bool_iff in E; exfalso; apply (Qlt_not_le _ _ H E).
Qed.

Lemma py_lt_false a b : py_lt a b = false <-> b <= a.
Proof.
  unfold py_lt; rewrite negb_false_iff; apply Qle_bool_iff.
Qed.

Lemma py_le_true a b : py_le a b = true <-> a <= b.
Proof. apply Qle_bool_iff. Qed.

Lemma py_le_false a b : py_le a b = false <-> b < a.
Proof.
  unfold py_le; split.
  - intros E; apply Qnot_le_lt; intros H; apply Qle_bool_iff in H; congruence.
  - intros H; destruct (Qle_bool a b) eqn:E; [|reflexivity].
    apply Qle_bool_iff in E; exfalso; apply (Qlt_not_le _ _ H E).
Qed.

Lemma py_max_l a b : a <= py_max a b.
Proof.
  unfold py_max; destruct (py_lt a b) eqn:E;
    [apply py_lt_true in E; apply Qlt_le_weak; exact E | apply Qle_refl].
Qed.

Lemma py_max_r a b : b <= py_max a b.
Proof.
  unfold py_max; destruct (py_lt a b) eqn:E;
    [apply Qle_refl | apply py_lt_false in E; exact E].
Qed.

Lemma py_max_cases a b : py_max a b = a \/ py_max a b = b.
Proof. unfold py_max; destruct (py_lt a b); auto. Qed.

Lemma py_div_ok a b : ~ b == 0 -> py_div a b = Ok (a / b).
Proof.
  intros H; unfold py_div; apply py_eq_false in H; rewrite H; reflexivity.
Qed.

Lemma Qdiv_pos a b : 0 < a -> 0 < b -> 0 < a / b.
Proof.
  intros Ha Hb; apply Qlt_shift_div_l; [exact Hb|].
  rewrite Qmult_0_l; exact Ha.
Qed.

(** The drawdown of one bar lies in [0, 1]. *)
Lemma drawdown_bounds p c : 0 < p -> 0 <= c -> c <= p -> 0 <= (p - c) / p <= 1.
Proof.
  intros Hp Hc Hcp; split.
  - apply Qle_shift_div_l; [exact Hp | lra].
  - apply Qle_shift_div_r; [exact Hp | lra].
Qed.

Lemma py_max_bounds a b : 0 <= a <= 1 -> 0 <= b <= 1 -> 0 <= py_max a b <= 1.
Proof. intros Ha Hb; destruct (py_max_cases a b) as [E|E]; rewrite E; auto. Qed.

Lemma InvestResult_new_Ok cs ce dd cc pe pf r :
  InvestResult_new cs ce dd cc pe pf = Ok r ->
  r = mkInvestResult cs ce pe dd pf cc /\ 0 < cs /\ 0 <= pe /\ 0 <= dd <= 1.
Proof.
  unfold InvestResult_new.
  destruct (py_lt 0 cs) eqn:E1, (py_le 0 pe) eqn:E2, (py_le 0 dd) eqn:E3,
    (py_le dd 1) eqn:E4; simpl; try discriminate.
  intros H; inversion H; subst.
  apply py_lt_true in E1; apply py_le_true in E2, E3, E4; auto.
Qed.

Lemma InvestResult_new_valid cs ce dd cc pe pf :
  0 < cs -> 0 <= pe -> 0 <= dd <= 1 ->
  InvestResult_new cs ce dd cc pe pf = Ok (mkInvestResult cs ce pe dd pf cc).
Proof.
  intros H1 H2 [H3 H4]; unfold InvestResult_new.
  apply py_lt_true in H1; apply py_le_true in H2, H3, H4.
  rewrite H1, H2, H3, H4; reflexivity.
Qed.

(** Turn the boolean tests of a destructed [if] into propositions. *)
Ltac py_facts :=
  repeat match goal with
  | E : _ && _ = true |- _ => apply andb_prop in E; destruct E
  | E : _ && _ = false |- _ => apply andb_false_iff in E; destruct E
  | E : negb _ = true |- _ => apply negb_true_iff in E
  | E : negb _ = false |- _ => apply negb_false_iff in E
  | E : py_eq _ _ = true |- _ => apply py_eq_true in E
  | E : py_eq _ _ = false |- _ => apply py_eq_false in E
  | E : py_lt _ _ = true |- _ => apply py_lt_true in E
  | E : py_lt _ _ = false |- _ => apply py_lt_false in E
  | E : py_le _ _ = true |- _ => apply py_le_true in E
  | E : py_le _ _ = false |- _ => apply py_le_false in E
  end.

(** Split conjunctions only (a plain [split] would unfold [Qlt]). *)
Ltac split_and := repeat match goal with |- _ /\ _ => split end.

(** ** Loops *)

Lemma foldM_length {St R : Type} (step : St -> R -> result St) (m : St -> nat) :
  (forall s r s', step s r = Ok s' -> m s' = S (m s)) ->
  forall rows s s', foldM step s rows = Ok s' -> m s' = (m s + length rows)%nat.
Proof.
  intros Hstep rows; induction rows as [|r rows IH]; intros s s' H; simpl in *.
  - inversion H; subst; lia.
  - apply bind_Ok in H as (s1 & H1 & H2).
    apply Hstep in H1; apply IH in H2; lia.
Qed.

Lemma foldM_exists {St R : Type} (step : St -> R -> result St) (Inv : St -> Prop)
  (P : R -> Prop) :
  (forall s r, Inv s -> P r -> exists s', step s r = Ok s' /\ Inv s') ->
  forall rows s, Inv s -> Forall P rows ->
  exists s', foldM step s rows = Ok s' /\ Inv s'.
Proof.
  intros Hstep rows; induction rows as [|r rows IH]; intros s Hs Hrows; simpl.
  - eauto.
  - inversion Hrows as [|? ? Hr Hrs]; subst.
    destruct (Hstep s r Hs Hr) as (s1 & E1 & H1).
    rewrite E1; simpl; apply IH; assumption.
Qed.

Lemma trace_exists {St R : Type} (step : St -> R -> result St) (Inv : St -> Prop)
  (P : R -> Prop) (le : St -> St -> Prop) :
  (forall s r, Inv s -> P r -> exists s', step s r = Ok s' /\ Inv s' /\ le s s') ->
  forall rows s, Inv s -> Forall P rows ->
  exists sts, trace step s rows = Ok sts /\ Forall Inv sts /\ Sorted le (s :: sts).
Proof.
  intros Hstep rows; induction rows as [|r rows IH]; intros s Hs Hrows; simpl.
  - exists []; repeat constructor.
  - inversion Hrows as [|? ? Hr Hrs]; subst.
    destruct (Hstep s r Hs Hr) as (s1 & E1 & H1 & L1).
    destruct (IH s1 H1 Hrs) as (sts & E & F & So).
    rewrite E1; simpl; rewrite E; simpl.
    exists (s1 :: sts); split; [reflexivity|]; split; [constructor; assumption|].
    constructor; [exact So | constructor; exact L1].
Qed.

Lemma last_cons_default {A : Type} (l : list A) (x d d' : A) :
  last (x :: l) d = last (x :: l) d'.
Proof.
  revert x; induction l as [|y l IH]; intros x; [reflexivity|].
  change (last (y :: l) d = last (y :: l) d'); apply IH.
Qed.

(** [trace] lists the states of the loop run by [foldM]. *)
Lemma foldM_trace {St R : Type} (step : St -> R -> result St) rows :
  forall s sts, trace step s rows = Ok sts -> foldM step s rows = Ok (last sts s).
Proof.
  induction rows as [|r rows IH]; intros s sts H; simpl in *.
  - inversion H; reflexivity.
  - apply bind_Ok in H as (s1 & E1 & H); apply bind_Ok in H as (l & E2 & H).
    inversion H; subst; rewrite E1; simpl.
    rewrite (IH _ _ E2); destruct l as [|s2 l].
    + destruct rows; simpl in E2; [reflexivity|].
      apply bind_Ok in E2 as (? & _ & E2); apply bind_Ok in E2 as (? & _ & E2).
      discriminate.
    + change (Ok (last (s2 :: l) s1) = Ok (last (s2 :: l) s)).
      rewrite (last_cons_default l s2 s1 s); reflexivity.
Qed.

(** ** Greedy matching decides [Subseq] *)

Lemma greedy_le ds hs : (greedy ds hs <= length ds)%nat.
Proof.
  revert ds; induction hs as [|h hs IH]; intros [|d ds]; simpl; try lia.
  destruct (Z.eqb h d); [specialize (IH ds) | specialize (IH (d :: ds)); simpl in IH];
    lia.
Qed.

Lemma Subseq_tail x l1 l2 : Subseq (x :: l1) l2 -> Subseq l1 l2.
Proof.
  induction l2 as [|y l2 IH]; intros H; inversion H; subst.
  - constructor; auto.
  - constructor; assumption.
Qed.

Lemma greedy_full ds hs : greedy ds hs = length ds <-> Subseq ds hs.
Proof.
  revert ds; induction hs as [|h hs IH]; intros [|d ds]; simpl.
  - split; constructor.
  - split; [discriminate | intros H; inversion H].
  - split; constructor.
  - destruct (Z.eqb h d) eqn:E.
    + apply Z.eqb_eq in E; subst; split.
      * intros H; constructor; apply IH; lia.
      * intros H; f_equal; apply IH; inversion H; subst;
          [eapply Subseq_tail; eassumption | assumption].
    + apply Z.eqb_neq in E; rewrite (IH (d :: ds)); split.
      * intros H; constructor; exact H.
      * intros H; inversion H; subst; [assumption | congruence].
Qed.

(** ** The dual-resolution loop *)

Module DualCursor.
Import RoadToBillions.Dual.

Lemma stop_phase_day pct s row :
  day (stop_phase pct s row) = day s /\
  capital_curve (stop_phase pct s row) = capital_curve s.
Proof.
  unfold stop_phase; destruct (negb _); [|auto].
  destruct (py_lt _ _); simpl; auto.
Qed.

Lemma day_entry_day pct s d s' :
  day_entry pct s d = Ok s' -> day s' = day s /\ capital_curve s' = capital_curve s.
Proof.
  unfold day_entry; intros H.
  destruct (py_eq _ _); [|inversion H; auto].
  destruct (_ && _); [|inversion H; auto].
  apply bind_Ok in H as (p & _ & H); inversion H; auto.
Qed.

(** One hourly row moves the cursor and extends the curve together. *)
Lemma step_cursor pct days s row s' :
  step pct days s row = Ok s' ->
  match nth_error days (day s) with
  | Some d =>
      if Z.eqb (open_time row) (open_time d)
      then day s' = S (day s) /\ length (capital_curve s') = S (length (capital_curve s))
      else day s' = day s /\ capital_curve s' = capital_curve s
  | None => day s' = day s /\ capital_curve s' = capital_curve s
  end.
Proof.
  unfold step, day_phase; destruct (stop_phase_day pct s row) as [Hd Hc].
  rewrite Hd; destruct (nth_error days (day s)) as [d|].
  - destruct (Z.eqb _ _).
    + intros H; apply bind_Ok in H as (s1 & E1 & H).
      apply day_entry_day in E1 as [D1 C1].
      unfold day_record in H; apply bind_Ok in H as (x & _ & H).
      inversion H; subst; simpl.
      rewrite length_app, C1, D1, Hd, Hc; simpl; split; lia.
    + intros H; inversion H; subst; auto.
  - intros H; inversion H; subst; auto.
Qed.

Lemma nth_error_skipn_cons {A : Type} (l : list A) n x :
  nth_error l n = Some x -> skipn n l = x :: skipn (S n) l.
Proof.
  revert l; induction n as [|n IH]; intros [|y l] H; simpl in *; try discriminate.
  - inversion H; reflexivity.
  - apply IH; exact H.
Qed.

Lemma nth_error_skipn_nil {A : Type} (l : list A) n :
  nth_error l n = None -> skipn n l = [].
Proof.
  intros H; apply nth_error_None in H; apply skipn_all2; exact H.
Qed.

(** The curve gets exactly the daily rows the greedy cursor matches. *)
Lemma fold_cursor pct days hours :
  forall s s', foldM (step pct days) s hours = Ok s' ->
  day s' = (day s + greedy (map open_time (skipn (day s) days)) (map open_time hours))%nat /\
  length (capital_curve s') =
    (length (capital_curve s)
     + greedy (map open_time (skipn (day s) days)) (map open_time hours))%nat.
Proof.
  induction hours as [|h hours IH]; intros s s' H; simpl in H.
  - inversion H; subst; destruct (map open_time (skipn (day s') days)); simpl; lia.
  - apply bind_Ok in H as (s1 & E1 & H).
    pose proof (step_cursor _ _ _ _ _ E1) as C.
    apply IH in H as [D L].
    destruct (nth_error days (day s)) as [d|] eqn:N.
    + rewrite (nth_error_skipn_cons _ _ _ N); cbn [map greedy].
      destruct (Z.eqb (open_time h) (open_time d)).
      * destruct C as [C1 C2]; rewrite C1 in D, L; rewrite C2 in L; lia.
      * destruct C as [C1 C2]; rewrite C1 in D, L; rewrite C2 in L.
        rewrite (nth_error_skipn_cons _ _ _ N) in D, L; cbn [map greedy] in D, L; lia.
    + rewrite (nth_error_skipn_nil _ _ N); simpl.
      destruct C as [C1 C2]; rewrite C1 in D, L; rewrite C2 in L.
      rewrite (nth_error_skipn_nil _ _ N) in D, L; simpl in D, L.
      destruct (map open_time hours); simpl in D, L; lia.
Qed.

End DualCursor.

(** ** The single-resolution loops *)

Module SimpleFacts.
Import Simple SimpleInv.

Lemma simple_trade_ok exit_signal s row :
  cash_inv s -> positive_prices row ->
  exists s', trade exit_signal s row = Ok s' /\ cash_inv s' /\
    peak s' = peak s /\ drawdown s' = drawdown s /\
    capital_curve s' = capital_curve s /\
    platform_fees s <= platform_fees s'.
Proof.
  intros (Hp & Hc & Hpc) (_ & _ & Hlow & Hclose); unfold trade.
  destruct (py_eq (positions s) 0) eqn:E0; py_facts.
  - destruct (buy row && py_lt 0 (capital s)) eqn:E1; py_facts.
    + rewrite py_div_ok by lra; simpl.
      pose proof (Qdiv_pos _ _ H0 Hclose) as Hd.
      pose proof (Qmult_le_0_compat _ _ (Qlt_le_weak _ _ Hd) (Qlt_le_weak _ _ Hclose)).
      eexists; split; [reflexivity|]; simpl.
      unfold cash_inv; simpl; split_and; try reflexivity; lra.
    + eexists; split; [reflexivity|]; split_and;
        first [reflexivity | apply Qle_refl | solve [unfold cash_inv; auto]].
    + eexists; split; [reflexivity|]; split_and;
        first [reflexivity | apply Qle_refl | solve [unfold cash_inv; auto]].
  - destruct (exit_signal row).
    + pose proof (Qmult_le_0_compat _ _ Hp (Qlt_le_weak _ _ Hclose)).
      eexists; split; [reflexivity|]; simpl.
      unfold cash_inv; simpl; split_and; try reflexivity; lra.
    + eexists; split; [reflexivity|]; split_and;
        first [reflexivity | apply Qle_refl | solve [unfold cash_inv; auto]].
Qed.

Lemma simple_record_ok s row :
  Inv s -> positive_prices row ->
  exists s', record s row = Ok s' /\ Inv s' /\
    positions s' = positions s /\ capital s' = capital s /\
    platform_fees s' = platform_fees s /\
    capital_curve s' = capital_curve s ++ [current_capital s'].
Proof.
  intros (Hpk & Hdd & Hp & Hc & Hpc) (_ & _ & _ & Hclose); unfold record.
  set (cur := if py_eq (positions s) 0 then capital s
              else positions s * close_price row).
  assert (Hcur : 0 <= cur).
  { unfold cur; destruct (py_eq _ _);
      [lra | apply Qmult_le_0_compat; lra]. }
  pose proof (py_max_l cur (peak s)) as M1; pose proof (py_max_r cur (peak s)) as M2.
  assert (Hb : 0 <= py_max ((py_max cur (peak s) - cur) / py_max cur (peak s))
                            (drawdown s) <= 1).
  { apply py_max_bounds; [apply drawdown_bounds; lra | exact Hdd]. }
  rewrite py_div_ok by lra; simpl.
  eexists; split; [reflexivity|]; unfold Inv, cash_inv; simpl.
  split_and; auto; lra.
Qed.

Lemma simple_step_ok exit_signal s row :
  Inv s -> positive_prices row ->
  exists s', step exit_signal s row = Ok s' /\ Inv s' /\
    platform_fees s <= platform_fees s' /\
    capital_curve s' = capital_curve s ++ [current_capital s'].
Proof.
  intros (Hpk & Hdd & Hcash) Hrow.
  destruct (simple_trade_ok exit_signal s row Hcash Hrow)
    as (s1 & E1 & Hcash1 & Pk & Dd & Cc & F1).
  destruct (simple_record_ok s1 row) as (s2 & E2 & Inv2 & _ & _ & F2 & Cc2);
    [unfold Inv; rewrite Pk, Dd; auto | exact Hrow |].
  exists s2; unfold step; rewrite E1; simpl; rewrite E2.
  split; [reflexivity|]; split; [exact Inv2|]; split; [rewrite F2; exact F1|].
  rewrite Cc2, Cc; reflexivity.
Qed.

Lemma simple_init_Inv c : 0 < c -> Inv (init c).
Proof. intros H; unfold Inv, cash_inv, init; simpl; split_and; lra. Qed.

(** Every step appends one point to the curve. *)
Lemma simple_step_length exit_signal s row s' :
  step exit_signal s row = Ok s' ->
  length (capital_curve s') = S (length (capital_curve s)).
Proof.
  unfold step, trade, record; intros H; apply bind_Ok in H as (s1 & E1 & H).
  apply bind_Ok in H as (x & _ & H); inversion H; subst; simpl.
  rewrite length_app; simpl.
  destruct (py_eq (positions s) 0).
  - destruct (_ && _).
    + apply bind_Ok in E1 as (p & _ & E1); inversion E1; subst; simpl; lia.
    + inversion E1; subst; lia.
  - destruct (exit_signal row); inversion E1; subst; simpl; lia.
Qed.

End SimpleFacts.

Module TrailingFacts.
Import Wayne.Trailing TrailingInv.

Lemma trailing_trade_ok slp tsp s row :
  cash_inv s -> positive_prices row ->
  exists s', trade slp tsp s row = Ok s' /\ cash_inv s' /\
    peak s' = peak s /\ drawdown s' = drawdown s /\
    capital_curve s' = capital_curve s /\
    platform_fees s <= platform_fees s'.
Proof.
  intros (Hp & Hc & Hpc) (_ & _ & Hlow & Hclose); unfold trade.
  destruct (py_eq (positions s) 0) eqn:E0; py_facts.
  - destruct (buy row && py_lt 0 (capital s)) eqn:E1; py_facts.
    + rewrite py_div_ok by lra; simpl.
      pose proof (Qdiv_pos _ _ H0 Hclose) as Hd.
      pose proof (Qmult_le_0_compat _ _ (Qlt_le_weak _ _ Hd) (Qlt_le_weak _ _ Hclose)).
      eexists; split; [reflexivity|]; simpl.
      unfold cash_inv; simpl; split_and; try reflexivity; lra.
    + eexists; split; [reflexivity|]; split_and;
        first [reflexivity | apply Qle_refl | solve [unfold cash_inv; auto]].
    + eexists; split; [reflexivity|]; split_and;
        first [reflexivity | apply Qle_refl | solve [unfold cash_inv; auto]].
  - destruct (py_lt (trailing_stop s) (high_price row)) eqn:E1.
    + eexists; split; [reflexivity|]; unfold cash_inv; simpl; split_and;
        first [reflexivity | apply Qle_refl | solve [auto]].
    + destruct (py_lt (low_price row) (stop_loss s)) eqn:E2; py_facts.
      * pose proof (Qmult_le_0_compat _ _ Hp (Qlt_le_weak 0 (stop_loss s) ltac:(lra))).
        eexists; split; [reflexivity|]; simpl.
        unfold cash_inv; simpl; split_and; try reflexivity; lra.
      * eexists; split; [reflexivity|]; split_and;
          first [reflexivity | apply Qle_refl | solve [unfold cash_inv; auto]].
Qed.

Lemma trailing_record_ok s row :
  Inv s -> positive_prices row ->
  exists s', record s row = Ok s' /\ Inv s' /\
    positions s' = positions s /\ capital s' = capital s /\
    platform_fees s' = platform_fees s /\
    capital_curve s' = capital_curve s ++ [current_capital s'].
Proof.
  intros (Hpk & Hdd & Hp & Hc & Hpc) (_ & _ & _ & Hclose); unfold record.
  set (cur := if py_eq (positions s) 0 then capital s
              else positions s * close_price row).
  assert (Hcur : 0 <= cur).
  { unfold cur; destruct (py_eq _ _);
      [lra | apply Qmult_le_0_compat; lra]. }
  pose proof (py_max_l cur (peak s)) as M1; pose proof (py_max_r cur (peak s)) as M2.
  assert (Hb : 0 <= py_max ((py_max cur (peak s) - cur) / py_max cur (peak s))
                            (drawdown s) <= 1).
  { apply py_max_bounds; [apply drawdown_bounds; lra | exact Hdd]. }
  rewrite py_div_ok by lra; simpl.
  eexists; split; [reflexivity|]; unfold Inv, cash_inv; simpl.
  split_and; auto; lra.
Qed.

Lemma trailing_step_ok slp tsp s row :
  Inv s -> positive_prices row ->
  exists s', step slp tsp s row = Ok s' /\ Inv s' /\
    platform_fees s <= platform_fees s' /\
    capital_curve s' = capital_curve s ++ [current_capital s'].
Proof.
  intros (Hpk & Hdd & Hcash) Hrow.
  destruct (trailing_trade_ok slp tsp s row Hcash Hrow)
    as (s1 & E1 & Hcash1 & Pk & Dd & Cc & F1).
  destruct (trailing_record_ok s1 row) as (s2 & E2 & Inv2 & _ & _ & F2 & Cc2);
    [unfold Inv; rewrite Pk, Dd; auto | exact Hrow |].
  exists s2; unfold step; rewrite E1; simpl; rewrite E2.
  split; [reflexivity|]; split; [exact Inv2|]; split; [rewrite F2; exact F1|].
  rewrite Cc2, Cc; reflexivity.
Qed.

Lemma trailing_init_Inv c : 0 < c -> Inv (init c).
Proof. intros H; unfold Inv, cash_inv, init; simpl; split_and; lra. Qed.

Lemma trailing_step_length slp tsp s row s' :
  step slp tsp s row = Ok s' ->
  length (capital_curve s') = S (length (capital_curve s)).
Proof.
  unfold step, trade, record; intros H; apply bind_Ok in H as (s1 & E1 & H).
  apply bind_Ok in H as (x & _ & H); inversion H; subst; simpl.
  rewrite length_app; simpl.
  destruct (py_eq (positions s) 0).
  - destruct (_ && _).
    + apply bind_Ok in E1 as (p & _ & E1); inversion E1; subst; simpl; lia.
    + inversion E1; subst; lia.
  - destruct (py_lt _ _); [inversion E1; subst; simpl; lia|].
    destruct (py_lt _ _); inversion E1; subst; simpl; lia.
Qed.

End TrailingFacts.

Module DualFacts.
Import RoadToBillions.Dual DualInv.

Lemma stop_phase_inv pct s row :
  cash_inv s -> 0 < close_price row ->
  cash_inv (stop_phase pct s row) /\
  peak (stop_phase pct s row) = peak s /\
  drawdown (stop_phase pct s row) = drawdown s /\
  platform_fees s <= platform_fees (stop_phase pct s row).
Proof.
  intros (Hp & Hc & Hpc) Hclose; unfold stop_phase.
  destruct (negb (py_eq (positions s) 0)) eqn:E0; py_facts.
  - set (st := py_max (stop_loss s) (close_price row * (1 - pct))).
    destruct (py_lt (close_price row) st) eqn:E1; py_facts.
    + pose proof (Qmult_le_0_compat _ _ Hp (Qlt_le_weak 0 st ltac:(lra))).
      unfold cash_inv; simpl; split_and; try reflexivity; lra.
    + unfold cash_inv; simpl; split_and; try reflexivity; auto; lra.
  - unfold cash_inv; split_and; auto; lra.
Qed.

Lemma day_entry_inv pct s d :
  cash_inv s -> 0 < close_price d ->
  exists s', day_entry pct s d = Ok s' /\ cash_inv s' /\
    peak s' = peak s /\ drawdown s' = drawdown s /\
    platform_fees s <= platform_fees s'.
Proof.
  intros (Hp & Hc & Hpc) Hclose; unfold day_entry.
  destruct (py_eq (positions s) 0) eqn:E0; py_facts.
  - destruct (buy d && py_lt 0 (capital s)) eqn:E1; py_facts.
    + rewrite py_div_ok by lra; simpl.
      pose proof (Qdiv_pos _ _ H0 Hclose) as Hd.
      pose proof (Qmult_le_0_compat _ _ (Qlt_le_weak _ _ Hd) (Qlt_le_weak _ _ Hclose)).
      eexists; split; [reflexivity|]; simpl.
      unfold cash_inv; simpl; split_and; try reflexivity; lra.
    + eexists; split; [reflexivity|]; split_and;
        first [reflexivity | apply Qle_refl | solve [unfold cash_inv; auto]].
    + eexists; split; [reflexivity|]; split_and;
        first [reflexivity | apply Qle_refl | solve [unfold cash_inv; auto]].
  - eexists; split; [reflexivity|]; split_and;
      first [reflexivity | apply Qle_refl | solve [unfold cash_inv; auto]].
Qed.

Lemma day_record_inv s d :
  Inv s -> 0 < close_price d ->
  exists s', day_record s d = Ok s' /\ Inv s' /\
    positions s' = positions s /\ capital s' = capital s /\
    platform_fees s' = platform_fees s.
Proof.
  intros (Hpk & Hdd & Hp & Hc & Hpc) Hclose; unfold day_record.
  set (cur := if py_eq (positions s) 0 then capital s
              else positions s * close_price d).
  assert (Hcur : 0 <= cur).
  { unfold cur; destruct (py_eq _ _);
      [lra | apply Qmult_le_0_compat; lra]. }
  pose proof (py_max_l cur (peak s)) as M1; pose proof (py_max_r cur (peak s)) as M2.
  assert (Hb : 0 <= py_max ((py_max cur (peak s) - cur) / py_max cur (peak s))
                            (drawdown s) <= 1).
  { apply py_max_bounds; [apply drawdown_bounds; lra | exact Hdd]. }
  rewrite py_div_ok by lra; simpl.
  eexists; split; [reflexivity|]; unfold Inv, cash_inv; simpl.
  split_and; auto; lra.
Qed.

Lemma dual_step_ok pct days s row :
  Forall positive_prices days ->
  Inv s -> positive_prices row ->
  exists s', step pct days s row = Ok s' /\ Inv s' /\
    platform_fees s <= platform_fees s'.
Proof.
  intros Hdays (Hpk & Hdd & Hcash) (_ & _ & _ & Hclose).
  destruct (stop_phase_inv pct s row Hcash Hclose) as (Hcash1 & Pk1 & Dd1 & F1).
  set (s1 := stop_phase pct s row) in *.
  unfold step; fold s1; unfold day_phase.
  destruct (nth_error days (day s1)) as [d|] eqn:N.
  - assert (Hd : 0 < close_price d).
    { apply nth_error_In in N; rewrite Forall_forall in Hdays.
      apply Hdays in N; apply N. }
    destruct (Z.eqb _ _).
    + destruct (day_entry_inv pct s1 d Hcash1 Hd) as (s2 & E2 & Hcash2 & Pk2 & Dd2 & F2).
      rewrite E2; simpl.
      destruct (day_record_inv (incr_day s2) d) as (s3 & E3 & Inv3 & _ & _ & F3).
      { destruct Hcash2 as (? & ? & ?).
        unfold Inv, cash_inv, incr_day; simpl; rewrite Pk2, Dd2, Pk1, Dd1.
        split_and; auto; lra. }
      { exact Hd. }
      exists s3; split; [exact E3|]; split; [exact Inv3|].
      rewrite F3; simpl; lra.
    + exists s1; split; [reflexivity|]; split; [|exact F1].
      unfold Inv; rewrite Pk1, Dd1; auto.
  - exists s1; split; [reflexivity|]; split; [|exact F1].
    unfold Inv; rewrite Pk1, Dd1; auto.
Qed.

Lemma dual_init_Inv c : 0 < c -> Inv (init c).
Proof. intros H; unfold Inv, cash_inv, init; simpl; split_and; lra. Qed.

End DualFacts.

Module NoStrategyFacts.
Import NoStrategy NoStrategyInv.

Lemma loop_body_ok p0 c0 f0 s row :
  Inv p0 c0 f0 s -> positive_prices row ->
  exists s', loop_body s row = Ok s' /\ Inv p0 c0 f0 s'.
Proof.
  intros (Hpk & Hdd & Hp & Hp0 & Hc & Hf) (_ & _ & _ & Hclose); subst p0 c0 f0.
  unfold loop_body.
  set (cur := positions s * close_price row).
  assert (Hcur : 0 <= cur) by (apply Qmult_le_0_compat; lra).
  pose proof (py_max_l cur (peak s)) as M1; pose proof (py_max_r cur (peak s)) as M2.
  assert (Hb : 0 <= py_max ((py_max cur (peak s) - cur) / py_max cur (peak s))
                            (drawdown s) <= 1).
  { apply py_max_bounds; [apply drawdown_bounds; lra | exact Hdd]. }
  rewrite py_div_ok by lra; simpl.
  eexists; split; [reflexivity|]; unfold Inv; simpl.
  split_and; auto; lra.
Qed.

Lemma loop_body_length s row s' :
  loop_body s row = Ok s' -> length (capital_curve s') = S (length (capital_curve s)).
Proof.
  unfold loop_body; intros H; apply bind_Ok in H as (x & _ & H).
  inversion H; subst; simpl; rewrite length_app; simpl; lia.
Qed.

Lemma enter_ok r0 rest c :
  0 < c -> positive_prices r0 ->
  enter (r0 :: rest) c =
  Ok (mkState c (0 + c / close_price r0 * close_price r0 * 0.001) c
        (c / close_price r0 * 0.999) 0 []).
Proof.
  intros Hc (_ & _ & _ & Hclose); unfold enter; simpl.
  rewrite py_div_ok by lra; reflexivity.
Qed.

(** Along the loop, positions and fees keep their entry values and each
    bar records the position times its close. *)
Lemma trace_marks rows : forall s sts, trace loop_body s rows = Ok sts ->
  Forall2 (fun s' row => positions s' = positions s /\ platform_fees s' = platform_fees s /\
             exists pre, capital_curve s' = pre ++ [positions s * close_price row]) sts rows.
Proof.
  induction rows as [|r rows IH]; intros s sts H; simpl in H.
  - inversion H; subst; constructor.
  - apply bind_Ok in H as (s1 & E1 & H); apply bind_Ok in H as (l & E2 & H).
    inversion H; subst; clear H.
    unfold loop_body in E1; apply bind_Ok in E1 as (x & _ & E1); inversion E1; subst; clear E1.
    constructor.
    + simpl; split_and; [reflexivity | reflexivity | eexists; reflexivity].
    + apply IH in E2; simpl in E2; exact E2.
Qed.

Lemma enter_nil c : enter [] c = Err IndexError.
Proof. reflexivity. Qed.

End NoStrategyFacts.

Lemma iloc_last_cons r0 rest : iloc_last (r0 :: rest) = Ok (last (r0 :: rest) r0).
Proof.
  unfold iloc_last.
  assert (E : rev (r0 :: rest) = last (r0 :: rest) r0 :: rev (removelast (r0 :: rest))).
  { rewrite (@app_removelast_last _ (r0 :: rest) r0) at 1 by discriminate.
    rewrite rev_unit; reflexivity. }
  rewrite E; reflexivity.
Qed.

(** ** The ranking *)

Module RankingFacts.
Import Ranking RankingOrder.

Lemma desc_trans : Transitive desc.
Proof. intros a b c H1 H2; unfold desc in *; lra. Qed.

Lemma insert_HdRel x y l :
  HdRel desc y l -> desc y x -> HdRel desc y (insert_desc x l).
Proof.
  intros H Hyx; destruct l as [|z l]; simpl.
  - constructor; exact Hyx.
  - destruct (py_lt (key z) (key x)); constructor; [exact Hyx|].
    inversion H; assumption.
Qed.

Lemma insert_sorted x l : Sorted desc l -> Sorted desc (insert_desc x l).
Proof.
  induction l as [|y l IH]; intros H; simpl.
  - repeat constructor.
  - destruct (py_lt (key y) (key x)) eqn:E; py_facts.
    + constructor; [exact H | constructor; unfold desc; lra].
    + inversion H; subst; constructor; [apply IH; assumption|].
      apply insert_HdRel; [assumption | unfold desc; exact E].
Qed.

Lemma insert_perm x l : Permutation (insert_desc x l) (x :: l).
Proof.
  induction l as [|y l IH]; simpl; [reflexivity|].
  destruct (py_lt (key y) (key x)); [reflexivity|].
  rewrite IH; apply perm_swap.
Qed.

Lemma fold_sorted l : forall acc, Sorted desc acc ->
  Sorted desc (fold_left (fun acc x => insert_desc x acc) l acc).
Proof.
  induction l as [|x l IH]; intros acc H; simpl; [exact H|].
  apply IH; apply insert_sorted; exact H.
Qed.

Lemma fold_perm l : forall acc,
  Permutation (fold_left (fun acc x => insert_desc x acc) l acc) (l ++ acc).
Proof.
  induction l as [|x l IH]; intros acc; simpl; [reflexivity|].
  rewrite IH, insert_perm; symmetry; apply Permutation_middle.
Qed.

(** In a list sorted by decreasing profit, nothing after the head is
    more profitable than it. *)
Lemma sorted_head_max y l : Sorted desc (y :: l) -> Forall (desc y) l.
Proof.
  intros H; apply Sorted_StronglySorted in H; [|exact desc_trans].
  inversion H; assumption.
Qed.

Lemma filter_below q l :
  Forall (fun z => key z < q) l -> filter (same_profit q) l = [].
Proof.
  induction l as [|z l IH]; intros F; [reflexivity|].
  inversion F as [|? ? Hz Hl]; subst; simpl; unfold same_profit at 1.
  destruct (Qeq_bool (key z) q) eqn:E; [apply Qeq_bool_iff in E; lra|].
  apply IH; exact Hl.
Qed.

Lemma filter_none q y l :
  Sorted desc (y :: l) -> key y < q -> filter (same_profit q) (y :: l) = [].
Proof.
  intros H Hy; apply filter_below; constructor; [exact Hy|].
  apply (Forall_impl _ (fun z (Hz : desc y z) => Qle_lt_trans _ _ _ Hz Hy)).
  apply sorted_head_max; exact H.
Qed.

(** Inserting keeps the order of the elements of equal profit and puts
    the new one last among them. *)
Lemma insert_stable q x acc :
  Sorted desc acc ->
  filter (same_profit q) (insert_desc x acc) =
  filter (same_profit q) acc ++ filter (same_profit q) [x].
Proof.
  induction acc as [|y acc IH]; intros H; [reflexivity|].
  simpl insert_desc; destruct (py_lt (key y) (key x)) eqn:E; py_facts.
  - change (filter (same_profit q) (x :: y :: acc)) with
      (if same_profit q x then x :: filter (same_profit q) (y :: acc)
       else filter (same_profit q) (y :: acc)).
    change (filter (same_profit q) [x]) with (if same_profit q x then [x] else []).
    destruct (same_profit q x) eqn:Ex.
    + unfold same_profit in Ex; apply Qeq_bool_iff in Ex.
      rewrite (filter_none q y acc H) by lra; reflexivity.
    + rewrite app_nil_r; reflexivity.
  - inversion H; subst.
    change (y :: insert_desc x acc) with ([y] ++ insert_desc x acc).
    change (y :: acc) with ([y] ++ acc).
    rewrite !filter_app, IH by assumption; apply app_assoc.
Qed.

Lemma fold_stable q l : forall acc, Sorted desc acc ->
  filter (same_profit q) (fold_left (fun acc x => insert_desc x acc) l acc) =
  filter (same_profit q) acc ++ filter (same_profit q) l.
Proof.
  induction l as [|x l IH]; intros acc H; cbn [fold_left].
  - cbn [filter]; rewrite app_nil_r; reflexivity.
  - rewrite IH by (apply insert_sorted; exact H).
    rewrite insert_stable by exact H.
    change (x :: l) with ([x] ++ l); rewrite filter_app, app_assoc; reflexivity.
Qed.

End RankingFacts.

(** ** What [apply] returns *)

Module ApplyFacts.

Lemma py_max_Qmax a b : py_max a b == Qmax a b.
Proof.
  unfold py_max; destruct (py_lt a b) eqn:E; py_facts.
  - rewrite Q.max_r; [reflexivity | lra].
  - rewrite Q.max_l; [reflexivity | exact E].
Qed.

Lemma simple_Ok e data c r :
  Simple.apply e data c = Ok r ->
  exists s, foldM (Simple.step e) (Simple.init c) data = Ok s /\
    r = mkInvestResult c (Simple.current_capital s) (Simple.positions s)
          (Simple.drawdown s) (Simple.platform_fees s) (Simple.capital_curve s) /\
    0 < c.
Proof.
  unfold Simple.apply; intros H; apply bind_Ok in H as (s & E & H).
  apply InvestResult_new_Ok in H as (-> & Hc & _); eauto.
Qed.

Lemma trailing_Ok slp tsp data c r :
  Wayne.Trailing.apply slp tsp data c = Ok r ->
  exists s, foldM (Wayne.Trailing.step slp tsp) (Wayne.Trailing.init c) data = Ok s /\
    r = mkInvestResult c (Wayne.Trailing.current_capital s) (Wayne.Trailing.positions s)
          (Wayne.Trailing.drawdown s) (Wayne.Trailing.platform_fees s)
          (Wayne.Trailing.capital_curve s) /\
    0 < c.
Proof.
  unfold Wayne.Trailing.apply; intros H; apply bind_Ok in H as (s & E & H).
  apply InvestResult_new_Ok in H as (-> & Hc & _); eauto.
Qed.

Lemma dual_Ok pct days hours c r :
  RoadToBillions.Dual.apply pct days hours c = Ok r ->
  exists s, foldM (RoadToBillions.Dual.step pct days) (RoadToBillions.Dual.init c) hours
              = Ok s /\
    r = mkInvestResult c (RoadToBillions.Dual.current_capital s)
          (RoadToBillions.Dual.positions s) 0 (RoadToBillions.Dual.platform_fees s)
          (RoadToBillions.Dual.capital_curve s) /\
    0 < c.
Proof.
  unfold RoadToBillions.Dual.apply; intros H; apply bind_Ok in H as (s & E & H).
  apply InvestResult_new_Ok in H as (-> & Hc & _); eauto.
Qed.

Lemma no_Ok data c r :
  NoStrategy.apply data c = Ok r ->
  exists s0 s, NoStrategy.enter data c = Ok s0 /\
    foldM NoStrategy.loop_body s0 data = Ok s /\
    capital_curve r = NoStrategy.capital_curve s /\ 0 < c.
Proof.
  unfold NoStrategy.apply; intros H; apply bind_Ok in H as (s0 & E0 & H).
  apply bind_Ok in H as (s & E & H); apply bind_Ok in H as (l & _ & H).
  apply InvestResult_new_Ok in H as (-> & Hc & _); exists s0, s; auto.
Qed.

Lemma simple_length e data c r :
  Simple.apply e data c = Ok r -> length (capital_curve r) = length data.
Proof.
  intros H; apply simple_Ok in H as (s & E & -> & _); simpl.
  apply (foldM_length _ (fun s => length (Simple.capital_curve s))
           (SimpleFacts.simple_step_length e)) in E.
  exact E.
Qed.

Lemma trailing_length slp tsp data c r :
  Wayne.Trailing.apply slp tsp data c = Ok r -> length (capital_curve r) = length data.
Proof.
  intros H; apply trailing_Ok in H as (s & E & -> & _); simpl.
  apply (foldM_length _ (fun s => length (Wayne.Trailing.capital_curve s))
           (TrailingFacts.trailing_step_length slp tsp)) in E.
  exact E.
Qed.

Lemma no_length data c r :
  NoStrategy.apply data c = Ok r -> length (capital_curve r) = length data.
Proof.
  intros H; apply no_Ok in H as (s0 & s & E0 & E & -> & _).
  apply (foldM_length _ (fun s => length (NoStrategy.capital_curve s))
           NoStrategyFacts.loop_body_length) in E.
  rewrite E; unfold NoStrategy.enter in E0.
  apply bind_Ok in E0 as (f & _ & E0); apply bind_Ok in E0 as (p & _ & E0).
  inversion E0; reflexivity.
Qed.

Lemma dual_length pct days hours c r :
  RoadToBillions.Dual.apply pct days hours c = Ok r ->
  length (capital_curve r) = greedy (map open_time days) (map open_time hours).
Proof.
  intros H; apply dual_Ok in H as (s & E & -> & _); simpl.
  apply DualCursor.fold_cursor in E as [_ L]; exact L.
Qed.

Lemma dual_total pct days hours c :
  0 < c -> Forall positive_prices days -> Forall positive_prices hours ->
  exists r, RoadToBillions.Dual.apply pct days hours c = Ok r.
Proof.
  intros Hc Hd Hh.
  destruct (foldM_exists (RoadToBillions.Dual.step pct days) DualInv.Inv positive_prices)
    with (rows := hours) (s := RoadToBillions.Dual.init c) as (s & E & Hs).
  - intros s r Hs Hr; destruct (DualFacts.dual_step_ok pct days s r Hd Hs Hr) as (s' & ? & ? & _).
    eauto.
  - apply DualFacts.dual_init_Inv; exact Hc.
  - exact Hh.
  - destruct Hs as (_ & _ & Hp & _).
    unfold RoadToBillions.Dual.apply; rewrite E; simpl.
    rewrite InvestResult_new_valid; [eauto | exact Hc | exact Hp | lra].
Qed.

End ApplyFacts.

(** * Claims *)

Module Claims.
Import Samples.

(** ** C1 *)

(** C1. The dual-resolution [TrailingStopStrategy.apply] tracks a
    running drawdown in its loop but builds its result with the literal
    [drawdown=0]: on one daily bar with a buy signal at close 100 and the
    matching hourly bar, with starting capital 1000, the entry fee leaves
    999 in the curve, the running maximum of (peak - capital)/peak is
    1/1000 (also the value of the loop's own [drawdown] variable), and
    the returned drawdown is 0. *)
Theorem C1_dual_drawdown_discarded :
  match RoadToBillions.Dual.apply 0.2 one_day one_day 1000 with
  | Ok r => drawdown r == 0 /\ capital_curve r = [999.00000] /\
            running_drawdown 1000 (capital_curve r) == 1 # 1000
  | Err _ => False
  end /\
  match foldM (RoadToBillions.Dual.step 0.2 one_day) (RoadToBillions.Dual.init 1000)
          one_day with
  | Ok s => RoadToBillions.Dual.drawdown s == 1 # 1000
  | Err _ => False
  end.
Proof. vm_compute; split_and; reflexivity. Qed.

(** ** C2 *)

(** C2. Counterexample: in the dual variant, a long position with
    stop-loss 80 meets an hourly bar with high 90, low 70 and close 90.
    The low is below the stop-loss, and high x (1 - 0.2) = 72 would not
    raise it; yet the position is kept, because the test reads the close. *)
Lemma C2_low_breach_not_detected :
  low_price dual_dip < RoadToBillions.Dual.stop_loss dual_long /\
  high_price dual_dip * (1 - 0.2) <= RoadToBillions.Dual.stop_loss dual_long /\
  RoadToBillions.Dual.positions (RoadToBillions.Dual.stop_phase 0.2 dual_long dual_dip)
    = RoadToBillions.Dual.positions dual_long /\
  ~ RoadToBillions.Dual.positions
      (RoadToBillions.Dual.stop_phase 0.2 dual_long dual_dip) == 0.
Proof.
  split_and; [vm_compute; reflexivity | vm_compute; discriminate | reflexivity |].
  vm_compute; discriminate.
Qed.

(** C2. In the dual variant, on every hourly bar while long, the
    stop-loss becomes max(stop_loss, close x (1 - stop_loss_pct)), the
    position is closed exactly when the close is below that new
    stop-loss, and then sold at that stop-loss: the cash is positions x
    stop-loss x 0.999 and the fee positions x stop-loss x 0.001 is added.
    The bar's high, low and open are not read (two bars with the same
    close give the same state). *)
Theorem C2_dual_stop_uses_close pct s row :
  ~ RoadToBillions.Dual.positions s == 0 ->
  RoadToBillions.Dual.stop_loss (RoadToBillions.Dual.stop_phase pct s row)
    == Qmax (RoadToBillions.Dual.stop_loss s) (close_price row * (1 - pct)) /\
  (RoadToBillions.Dual.positions (RoadToBillions.Dual.stop_phase pct s row) == 0 <->
   close_price row < RoadToBillions.Dual.stop_loss (RoadToBillions.Dual.stop_phase pct s row)) /\
  (close_price row < RoadToBillions.Dual.stop_loss (RoadToBillions.Dual.stop_phase pct s row) ->
   RoadToBillions.Dual.capital (RoadToBillions.Dual.stop_phase pct s row) =
     RoadToBillions.Dual.positions s *
       RoadToBillions.Dual.stop_loss (RoadToBillions.Dual.stop_phase pct s row) * 0.999 /\
   RoadToBillions.Dual.platform_fees (RoadToBillions.Dual.stop_phase pct s row) =
     RoadToBillions.Dual.platform_fees s + RoadToBillions.Dual.positions s *
       RoadToBillions.Dual.stop_loss (RoadToBillions.Dual.stop_phase pct s row) * 0.001) /\
  (forall row', close_price row' = close_price row ->
   RoadToBillions.Dual.stop_phase pct s row' = RoadToBillions.Dual.stop_phase pct s row).
Proof.
  intros Hp; unfold RoadToBillions.Dual.stop_phase.
  assert (E : py_eq (RoadToBillions.Dual.positions s) 0 = false) by (apply py_eq_false; exact Hp).
  rewrite E; simpl negb; cbv zeta.
  set (st := py_max (RoadToBillions.Dual.stop_loss s) (close_price row * (1 - pct))).
  split_and.
  - destruct (py_lt (close_price row) st); apply ApplyFacts.py_max_Qmax.
  - destruct (py_lt (close_price row) st) eqn:L; py_facts; simpl; split; intros H.
    + exact L.
    + reflexivity.
    + contradiction.
    + lra.
  - intros H; destruct (py_lt (close_price row) st) eqn:L; py_facts; simpl in H |- *;
      [split; reflexivity | lra].
  - intros row' Hc; rewrite Hc; reflexivity.
Qed.

Lemma C2_dual_stop_uses_close_witness :
  ~ RoadToBillions.Dual.positions dual_long == 0 /\
  RoadToBillions.Dual.stop_loss (RoadToBillions.Dual.stop_phase 0.2 dual_long dual_dip)
    == Qmax (RoadToBillions.Dual.stop_loss dual_long) (close_price dual_dip * (1 - 0.2)) /\
  RoadToBillions.Dual.capital
    (RoadToBillions.Dual.stop_phase 0.2 dual_long (bar 3600000 70 70 70 70 false)) =
  RoadToBillions.Dual.positions dual_long *
    RoadToBillions.Dual.stop_loss
      (RoadToBillions.Dual.stop_phase 0.2 dual_long (bar 3600000 70 70 70 70 false)) * 0.999.
Proof.
  assert (H : ~ RoadToBillions.Dual.positions dual_long == 0) by (vm_compute; discriminate).
  split_and; [exact H | apply (C2_dual_stop_uses_close 0.2 dual_long dual_dip H) |].
  apply (proj1 (proj2 (proj2 (C2_dual_stop_uses_close 0.2 dual_long
                                (bar 3600000 70 70 70 70 false) H)))).
  vm_compute; reflexivity.
Defined.

(** ** C3 *)

(** C3. Counterexample: daily bars at hours 0, 24 and 48 with
    hourly bars for hours 0 to 47 only. The dual variant raises nothing:
    it returns a result whose curve has 2 points for the 3 daily bars. *)
Lemma C3_truncated_hours_accepted :
  length three_days = 3%nat /\
  match RoadToBillions.Dual.apply 0.2 three_days hours_to_47 1000 with
  | Ok r => length (capital_curve r) = 2%nat
  | Err _ => False
  end.
Proof. vm_compute; split; reflexivity. Qed.

(** C3. The dual variant has no alignment error: with positive
    prices and a positive starting capital it always returns a result.
    Its curve has one point per daily bar matched by the cursor (the
    greedy match of the daily times inside the hourly times); it has
    one point per daily bar exactly when the daily times occur, in order,
    among the hourly times, and fewer otherwise: the cursor stays on the
    first daily bar it cannot match and the later daily bars are
    skipped. *)
Theorem C3_dual_alignment_silent pct days hours c :
  0 < c -> Forall positive_prices days -> Forall positive_prices hours ->
  exists r, RoadToBillions.Dual.apply pct days hours c = Ok r /\
    length (capital_curve r) = greedy (map open_time days) (map open_time hours) /\
    (length (capital_curve r) <= length days)%nat /\
    (length (capital_curve r) = length days <->
     Subseq (map open_time days) (map open_time hours)).
Proof.
  intros Hc Hd Hh.
  destruct (ApplyFacts.dual_total pct days hours c Hc Hd Hh) as (r & E).
  exists r; split; [exact E|].
  rewrite (ApplyFacts.dual_length _ _ _ _ _ E).
  split; [reflexivity|]; split.
  - rewrite <- (length_map open_time days); apply greedy_le.
  - rewrite <- (length_map open_time days); apply greedy_full.
Qed.

Lemma C3_dual_alignment_silent_witness :
  exists r, RoadToBillions.Dual.apply 0.2 three_days hours_to_47 1000 = Ok r /\
    length (capital_curve r) = greedy (map open_time three_days) (map open_time hours_to_47) /\
    (length (capital_curve r) <= length three_days)%nat /\
    (length (capital_curve r) = length three_days <->
     Subseq (map open_time three_days) (map open_time hours_to_47)).
Proof.
  apply C3_dual_alignment_silent;
    [reflexivity | | ];
    repeat (apply Forall_cons || apply Forall_nil);
    unfold positive_prices; simpl; split_and; reflexivity.
Defined.

(** ** C4 *)

(** C4. Counterexample: [SimpleStrategy.apply] and the single-resolution
    [TrailingStopStrategy.apply] of [wayne/strategy.py] on an empty series
    return a result (empty curve, end capital = start capital) instead
    of failing. *)
Lemma C4_empty_series_returns :
  Wayne.simple_apply [] 1000 = Ok (mkInvestResult 1000 1000 0 0 0 []) /\
  Wayne.Trailing.apply 0.2 0.001 [] 1000 = Ok (mkInvestResult 1000 1000 0 0 0 []).
Proof. split; reflexivity. Qed.

(** C4. Nothing checks the input series or the starting capital before
    the loop. On an empty series [SimpleStrategy] (both exit rules) and
    both [TrailingStopStrategy] variants return capital_end =
    capital_start, no positions, no fee, drawdown 0 and an empty curve;
    [NoStrategy] fails with an [IndexError] on [iloc[0]]. With a
    starting capital <= 0 no [apply] returns a result: [InvestResult]
    rejects a non-positive [capital_start] (or, before it, the drawdown
    divides by a zero peak); the constructor itself stores any capital. *)
Theorem C4_empty_series_and_capital :
  (forall c, 0 < c ->
     (forall exit_signal,
        Simple.apply exit_signal [] c = Ok (mkInvestResult c c 0 0 0 [])) /\
     (forall slp tsp,
        Wayne.Trailing.apply slp tsp [] c = Ok (mkInvestResult c c 0 0 0 [])) /\
     (forall pct days,
        RoadToBillions.Dual.apply pct days [] c = Ok (mkInvestResult c c 0 0 0 []))) /\
  (forall c, NoStrategy.apply [] c = Err IndexError) /\
  (forall c, c <= 0 ->
     (forall exit_signal data r, Simple.apply exit_signal data c <> Ok r) /\
     (forall slp tsp data r, Wayne.Trailing.apply slp tsp data c <> Ok r) /\
     (forall pct days hours r, RoadToBillions.Dual.apply pct days hours c <> Ok r) /\
     (forall data r, NoStrategy.apply data c <> Ok r)).
Proof.
  split_and.
  - intros c Hc; split_and; intros; apply InvestResult_new_valid; lra.
  - reflexivity.
  - intros c Hc; split_and; intros; intros H.
    + apply ApplyFacts.simple_Ok in H as (_ & _ & _ & H); lra.
    + apply ApplyFacts.trailing_Ok in H as (_ & _ & _ & H); lra.
    + apply ApplyFacts.dual_Ok in H as (_ & _ & _ & H); lra.
    + apply ApplyFacts.no_Ok in H as (_ & _ & _ & _ & _ & H); lra.
Qed.

Lemma C4_empty_series_and_capital_witness :
  Wayne.simple_apply [] 1000 = Ok (mkInvestResult 1000 1000 0 0 0 []) /\
  (forall data r, Wayne.simple_apply data 0 <> Ok r).
Proof.
  destruct C4_empty_series_and_capital as (Hpos & _ & Hneg).
  split.
  - apply (Hpos 1000); reflexivity.
  - apply (Hneg 0); apply Qle_refl.
Defined.

(** ** C5 *)

(** C5. Counterexample: single-resolution trailing stop, long with
    stop-loss 80 and trigger 100.1 ([stop_loss_pct = 0.2],
    [trailing_stop_pct = 0.001]); a bar with high 110 and low 70. The low
    breaches the stop-loss, yet the stop-loss is raised (to 88) and the
    position is kept. *)
Lemma C5_ratchet_despite_breach :
  match Wayne.Trailing.trade 0.2 0.001 trailing_long wide_bar with
  | Ok s' =>
      low_price wide_bar < Wayne.Trailing.stop_loss trailing_long /\
      Wayne.Trailing.stop_loss trailing_long < Wayne.Trailing.stop_loss s' /\
      Wayne.Trailing.positions s' = Wayne.Trailing.positions trailing_long
  | Err _ => False
  end.
Proof. vm_compute; split_and; reflexivity. Qed.

(** C5. A ratchet and a stop-loss exit never happen on the same bar.
    Single resolution: the ratchet is tested first, so a long bar that
    exits leaves the stop-loss and trigger unchanged, and a bar whose
    high is above the trigger raises the stop-loss to
    high x (1 - stop_loss_pct) and keeps the position whatever its low.
    Dual resolution (stop_loss_pct >= 0, positive close): an hourly bar
    that raises the stop-loss keeps the position, and its close was not
    below the previous stop-loss. *)
Theorem C5_ratchet_exit_exclusive :
  (forall slp tsp s row s',
     ~ Wayne.Trailing.positions s == 0 ->
     Wayne.Trailing.trade slp tsp s row = Ok s' ->
     (Wayne.Trailing.positions s' == 0 ->
        Wayne.Trailing.stop_loss s' = Wayne.Trailing.stop_loss s /\
        Wayne.Trailing.trailing_stop s' = Wayne.Trailing.trailing_stop s) /\
     (Wayne.Trailing.trailing_stop s < high_price row ->
        Wayne.Trailing.positions s' = Wayne.Trailing.positions s /\
        Wayne.Trailing.stop_loss s' = high_price row * (1 - slp))) /\
  (forall pct s row,
     0 <= pct -> 0 < close_price row ->
     ~ RoadToBillions.Dual.positions s == 0 ->
     RoadToBillions.Dual.stop_loss s <
       RoadToBillions.Dual.stop_loss (RoadToBillions.Dual.stop_phase pct s row) ->
     RoadToBillions.Dual.positions (RoadToBillions.Dual.stop_phase pct s row)
       = RoadToBillions.Dual.positions s /\
     RoadToBillions.Dual.stop_loss s <= close_price row).
Proof.
  split.
  - intros slp tsp s row s' Hp E; unfold Wayne.Trailing.trade in E.
    assert (E0 : py_eq (Wayne.Trailing.positions s) 0 = false) by (apply py_eq_false; exact Hp).
    rewrite E0 in E.
    destruct (py_lt (Wayne.Trailing.trailing_stop s) (high_price row)) eqn:E1; py_facts.
    + inversion E; subst; simpl; split; [intros H; contradiction | auto].
    + destruct (py_lt (low_price row) (Wayne.Trailing.stop_loss s)) eqn:E2;
        inversion E; subst; simpl; split; try (intros; lra); auto; intros H; contradiction.
  - intros pct s row Hpct Hc Hp; unfold RoadToBillions.Dual.stop_phase.
    assert (E0 : py_eq (RoadToBillions.Dual.positions s) 0 = false)
      by (apply py_eq_false; exact Hp).
    rewrite E0; simpl negb; cbv zeta.
    set (x := close_price row * (1 - pct)).
    assert (Hx : x <= close_price row) by (unfold x; nra).
    destruct (py_max_cases (RoadToBillions.Dual.stop_loss s) x) as [M|M]; rewrite M.
    + destruct (py_lt (close_price row) (RoadToBillions.Dual.stop_loss s)); simpl; lra.
    + assert (L : py_lt (close_price row) x = false) by (apply py_lt_false; exact Hx).
      rewrite L; simpl; intros H; split; [reflexivity | lra].
Qed.

Lemma C5_ratchet_exit_exclusive_witness :
  Wayne.Trailing.positions (Wayne.Trailing.mkState 0 999 1 1000 9.99 (1 # 1000) 88.0 110.110 [999])
    = Wayne.Trailing.positions trailing_long /\
  Wayne.Trailing.stop_loss (Wayne.Trailing.mkState 0 999 1 1000 9.99 (1 # 1000) 88.0 110.110 [999])
    = high_price wide_bar * (1 - 0.2).
Proof.
  refine (proj2 (proj1 C5_ratchet_exit_exclusive 0.2 0.001 trailing_long wide_bar
     (Wayne.Trailing.mkState 0 999 1 1000 9.99 (1 # 1000) 88.0 110.110 [999]) _ _) _);
    vm_compute; first [reflexivity | discriminate].
Defined.

(** ** C6 *)

(** C6. A stop-loss exit sells at the stop-loss price, not at the low:
    cash becomes positions x stop_loss x 0.999, the fee
    positions x stop_loss x 0.001 is added and positions become 0; in the
    single-resolution variant on a long bar whose high stays under the
    trigger and whose low is under the stop-loss, in the dual variant
    whenever the hourly stop test fires (with the updated stop-loss).
    Example: buying at close 100 with stop_loss_pct = 0.2 and 1000 of
    capital, then a bar with low 75 and high 100, ends with
    (1000 / 100 x 0.999) x 80 x 0.999 in cash. *)
Theorem C6_exit_at_stop_price :
  (forall slp tsp s row,
     ~ Wayne.Trailing.positions s == 0 ->
     high_price row <= Wayne.Trailing.trailing_stop s ->
     low_price row < Wayne.Trailing.stop_loss s ->
     Wayne.Trailing.trade slp tsp s row =
     Ok (Wayne.Trailing.mkState
           (Wayne.Trailing.positions s * Wayne.Trailing.stop_loss s * 0.999)
           (Wayne.Trailing.current_capital s)
           (Wayne.Trailing.platform_fees s
            + Wayne.Trailing.positions s * Wayne.Trailing.stop_loss s * 0.001)
           (Wayne.Trailing.peak s) 0 (Wayne.Trailing.drawdown s)
           (Wayne.Trailing.stop_loss s) (Wayne.Trailing.trailing_stop s)
           (Wayne.Trailing.capital_curve s))) /\
  (forall pct s row,
     ~ RoadToBillions.Dual.positions s == 0 ->
     let s' := RoadToBillions.Dual.stop_phase pct s row in
     close_price row < RoadToBillions.Dual.stop_loss s' ->
     RoadToBillions.Dual.capital s'
       = RoadToBillions.Dual.positions s * RoadToBillions.Dual.stop_loss s' * 0.999 /\
     RoadToBillions.Dual.platform_fees s'
       = RoadToBillions.Dual.platform_fees s
         + RoadToBillions.Dual.positions s * RoadToBillions.Dual.stop_loss s' * 0.001 /\
     RoadToBillions.Dual.positions s' = 0) /\
  match Wayne.Trailing.apply 0.2 0.001 entry_then_dip 1000 with
  | Ok r => capital_end r == (1000 / 100 * 0.999) * 80 * 0.999 /\ positions_end r == 0
  | Err _ => False
  end.
Proof.
  split_and.
  - intros slp tsp s row Hp Hh Hl; unfold Wayne.Trailing.trade.
    assert (E0 : py_eq (Wayne.Trailing.positions s) 0 = false) by (apply py_eq_false; exact Hp).
    assert (E1 : py_lt (Wayne.Trailing.trailing_stop s) (high_price row) = false)
      by (apply py_lt_false; exact Hh).
    assert (E2 : py_lt (low_price row) (Wayne.Trailing.stop_loss s) = true)
      by (apply py_lt_true; exact Hl).
    rewrite E0, E1, E2; reflexivity.
  - intros pct s row Hp; unfold RoadToBillions.Dual.stop_phase.
    assert (E0 : py_eq (RoadToBillions.Dual.positions s) 0 = false)
      by (apply py_eq_false; exact Hp).
    rewrite E0; simpl negb; cbv zeta.
    destruct (py_lt (close_price row) _) eqn:L; simpl; intros H.
    + split_and; reflexivity.
    + py_facts; lra.
  - vm_compute; split; reflexivity.
Qed.

Lemma C6_exit_at_stop_price_witness :
  Wayne.Trailing.trade 0.2 0.001 trailing_long dip_bar =
  Ok (Wayne.Trailing.mkState (9.99 * 80 * 0.999) 999 (1 + 9.99 * 80 * 0.001)
        1000 0 (1 # 1000) 80 100.1 [999]).
Proof.
  apply (proj1 C6_exit_at_stop_price 0.2 0.001 trailing_long dip_bar);
    vm_compute; [discriminate | discriminate | reflexivity].
Defined.

(** ** C7 *)

(** C7. [NoStrategy.apply] (the same code in both files) is a buy-and-hold
    round trip: on a non-empty series with positive prices and a positive
    starting capital it returns a result whose capital_end is
    capital_start x 0.999 x (last close / first close) x 0.999; the fee
    is paid at the forced entry on the first close and at the forced exit
    on the last close, and the positions stay unchanged in between. *)
Theorem C7_buy_and_hold_round_trip r0 rest c :
  0 < c -> Forall positive_prices (r0 :: rest) ->
  exists res, NoStrategy.apply (r0 :: rest) c = Ok res /\
    capital_end res ==
      c * 0.999 * (close_price (last (r0 :: rest) r0) / close_price r0) * 0.999.
Proof.
  intros Hc Hrows.
  pose proof (Forall_inv Hrows) as Hr0.
  pose proof Hr0 as (_ & _ & _ & Hclose0).
  set (p0 := c / close_price r0 * 0.999).
  set (f0 := 0 + c / close_price r0 * close_price r0 * 0.001).
  assert (Hp0 : 0 < p0).
  { unfold p0; pose proof (Qdiv_pos c (close_price r0) Hc Hclose0); lra. }
  assert (Hinit : NoStrategyInv.Inv p0 c f0 (NoStrategy.mkState c f0 c p0 0 [])).
  { unfold NoStrategyInv.Inv; simpl; split_and; auto; lra. }
  destruct (foldM_exists NoStrategy.loop_body (NoStrategyInv.Inv p0 c f0) positive_prices
              (NoStrategyFacts.loop_body_ok p0 c f0) (r0 :: rest) _ Hinit Hrows)
    as (s & Es & Hpk & Hdd & Hp & _ & _ & _).
  unfold NoStrategy.apply.
  rewrite (NoStrategyFacts.enter_ok r0 rest c Hc Hr0); cbn [bind].
  fold p0 f0; rewrite Es; cbn [bind].
  rewrite iloc_last_cons; cbn [bind].
  rewrite InvestResult_new_valid; [| exact Hc | rewrite Hp; lra | exact Hdd].
  eexists; split; [reflexivity|]; simpl.
  rewrite Hp; unfold p0; field.
  intros H; rewrite H in Hclose0; apply (Qlt_irrefl 0); exact Hclose0.
Qed.

Lemma C7_buy_and_hold_round_trip_witness :
  exists res, NoStrategy.apply ([bar 0 100 100 100 100 true; bar 86400000 100 130 90 120 false]) 1000
      = Ok res /\
    capital_end res ==
      1000 * 0.999 * (close_price (last ([bar 0 100 100 100 100 true; bar 86400000 100 130 90 120 false])
                                     (bar 0 100 100 100 100 true))
                      / close_price (bar 0 100 100 100 100 true)) * 0.999.
Proof.
  apply C7_buy_and_hold_round_trip;
    [reflexivity |];
    repeat (apply Forall_cons || apply Forall_nil);
    unfold positive_prices; simpl; split_and; reflexivity.
Defined.

(** ** C8 *)

(** C8. Counterexample: a non-empty series (one daily bar at time 5, one
    hourly bar at time 0) gives the dual variant an empty capital curve:
    no hourly bar matches the daily one, so no point is recorded. *)
Lemma C8_dual_curve_empty :
  match RoadToBillions.Dual.apply 0.2 lone_day lone_hour 1000 with
  | Ok r => capital_curve r = [] /\ lone_day <> []
  | Err _ => False
  end.
Proof. vm_compute; split; [reflexivity | discriminate]. Qed.

(** C8. The single-resolution strategies ([SimpleStrategy] with either
    exit rule, [TrailingStopStrategy] of [wayne/strategy.py] and
    [NoStrategy]) record one curve point per bar of the input series. The
    dual variant records one point per daily bar matched, in order, by an
    hourly bar of the same timestamp: their number is at most the number
    of daily bars, and equal to it exactly when the daily timestamps
    form a subsequence of the hourly ones. *)
Theorem C8_curve_length :
  (forall exit_signal data c r, Simple.apply exit_signal data c = Ok r ->
     length (capital_curve r) = length data) /\
  (forall slp tsp data c r, Wayne.Trailing.apply slp tsp data c = Ok r ->
     length (capital_curve r) = length data) /\
  (forall data c r, NoStrategy.apply data c = Ok r ->
     length (capital_curve r) = length data) /\
  (forall pct days hours c r, RoadToBillions.Dual.apply pct days hours c = Ok r ->
     length (capital_curve r) = greedy (map open_time days) (map open_time hours) /\
     (length (capital_curve r) <= length days)%nat /\
     (length (capital_curve r) = length days <->
      Subseq (map open_time days) (map open_time hours))).
Proof.
  split_and.
  - exact ApplyFacts.simple_length.
  - exact ApplyFacts.trailing_length.
  - exact ApplyFacts.no_length.
  - intros pct days hours c r H; apply ApplyFacts.dual_length in H; rewrite H.
    split_and; [reflexivity | | ].
    + pose proof (greedy_le (map open_time days) (map open_time hours)) as L.
      rewrite length_map in L; exact L.
    + rewrite <- (length_map open_time days); apply greedy_full.
Qed.

Lemma C8_curve_length_witness :
  exists r, Wayne.simple_apply one_day 1000 = Ok r /\
    length (capital_curve r) = length one_day.
Proof.
  eexists; split; [reflexivity |].
  apply (proj1 C8_curve_length Wayne.simple_exit one_day 1000); reflexivity.
Defined.

(** ** C9 *)

(** C9. Counterexample: two symbols of equal profit listed as
    [BUSDT; AUSDT] keep that order after the ranking, although [AUSDT]
    comes first in lexicographic order: ties are not broken by name. *)
Lemma C9_ties_keep_input_order :
  map fst (Ranking.sort_desc tied_results) = ["BUSDT"%string; "AUSDT"%string] /\
  Forall (fun e => Ranking.key e == 0) tied_results /\
  String.compare "AUSDT" "BUSDT" = Lt.
Proof.
  split_and; [reflexivity | | reflexivity].
  repeat (apply Forall_cons || apply Forall_nil); reflexivity.
Qed.

(** C9. [evaluate_symbols] sorts with [list.sort(key=profit,
    reverse=True)]: the result is ordered by non-increasing profit, is a
    permutation of the input, and the results of any given profit keep
    their input order (the sort is stable; there is no tie-break on the
    symbol, so the order of ties is the order of the input). *)
Theorem C9_rank_by_profit_stable results :
  Sorted RankingOrder.desc (Ranking.sort_desc results) /\
  Permutation (Ranking.sort_desc results) results /\
  (forall q, filter (RankingOrder.same_profit q) (Ranking.sort_desc results) =
             filter (RankingOrder.same_profit q) results).
Proof.
  unfold Ranking.sort_desc; split_and.
  - apply RankingFacts.fold_sorted; constructor.
  - rewrite RankingFacts.fold_perm, app_nil_r; reflexivity.
  - intros q; rewrite RankingFacts.fold_stable by constructor; reflexivity.
Qed.

(** ** C10 *)

(** C10. With positive prices and a positive starting capital, the state
    after each bar of [SimpleStrategy] (either exit rule) and of both
    [TrailingStopStrategy] variants has positions >= 0, cash >= 0 and
    cash = 0 while positions > 0, and the platform fees never decrease
    from one bar to the next. [NoStrategy] invests all of its capital at
    the first close (its local [capital] is never read again and is
    overwritten before the result is built): after each bar it holds the
    positive position bought at the first close, its fees are those of
    the entry, and the capital it records is that position times the
    bar's close, with no cash beside it. *)
Theorem C10_cash_invariant :
  (forall exit_signal data c, 0 < c -> Forall positive_prices data ->
     exists sts, trace (Simple.step exit_signal) (Simple.init c) data = Ok sts /\
       Forall SimpleInv.cash_inv sts /\
       Sorted (fun a b => Simple.platform_fees a <= Simple.platform_fees b)
         (Simple.init c :: sts)) /\
  (forall slp tsp data c, 0 < c -> Forall positive_prices data ->
     exists sts, trace (Wayne.Trailing.step slp tsp) (Wayne.Trailing.init c) data = Ok sts /\
       Forall TrailingInv.cash_inv sts /\
       Sorted (fun a b => Wayne.Trailing.platform_fees a <= Wayne.Trailing.platform_fees b)
         (Wayne.Trailing.init c :: sts)) /\
  (forall pct days hours c, 0 < c -> Forall positive_prices days ->
     Forall positive_prices hours ->
     exists sts, trace (RoadToBillions.Dual.step pct days)
                   (RoadToBillions.Dual.init c) hours = Ok sts /\
       Forall DualInv.cash_inv sts /\
       Sorted (fun a b => RoadToBillions.Dual.platform_fees a
                          <= RoadToBillions.Dual.platform_fees b)
         (RoadToBillions.Dual.init c :: sts)) /\
  (forall r0 rest c, 0 < c -> Forall positive_prices (r0 :: rest) ->
     exists s0 sts, NoStrategy.enter (r0 :: rest) c = Ok s0 /\
       NoStrategy.positions s0 = c / close_price r0 * 0.999 /\
       0 < NoStrategy.positions s0 /\
       trace NoStrategy.loop_body s0 (r0 :: rest) = Ok sts /\
       Forall2 (fun s row => NoStrategy.positions s = NoStrategy.positions s0 /\
                  NoStrategy.platform_fees s = NoStrategy.platform_fees s0 /\
                  exists pre, NoStrategy.capital_curve s =
                                pre ++ [NoStrategy.positions s0 * close_price row])
         sts (r0 :: rest)).
Proof.
  split_and.
  - intros e data c Hc Hd.
    destruct (trace_exists (Simple.step e) SimpleInv.Inv positive_prices
                (fun a b => Simple.platform_fees a <= Simple.platform_fees b))
      with (rows := data) (s := Simple.init c) as (sts & E & HI & HS);
      [| apply SimpleFacts.simple_init_Inv; exact Hc | exact Hd |].
    + intros s r Hs Hr; destruct (SimpleFacts.simple_step_ok e s r Hs Hr) as (s' & ? & ? & ? & _).
      eauto.
    + exists sts; split_and; [exact E | | exact HS].
      apply (Forall_impl _ (fun s H => proj2 (proj2 H)) HI).
  - intros slp tsp data c Hc Hd.
    destruct (trace_exists (Wayne.Trailing.step slp tsp) TrailingInv.Inv positive_prices
                (fun a b => Wayne.Trailing.platform_fees a <= Wayne.Trailing.platform_fees b))
      with (rows := data) (s := Wayne.Trailing.init c) as (sts & E & HI & HS);
      [| apply TrailingFacts.trailing_init_Inv; exact Hc | exact Hd |].
    + intros s r Hs Hr; destruct (TrailingFacts.trailing_step_ok slp tsp s r Hs Hr) as (s' & ? & ? & ? & _).
      eauto.
    + exists sts; split_and; [exact E | | exact HS].
      apply (Forall_impl _ (fun s H => proj2 (proj2 H)) HI).
  - intros pct days hours c Hc Hdays Hd.
    destruct (trace_exists (RoadToBillions.Dual.step pct days) DualInv.Inv positive_prices
                (fun a b => RoadToBillions.Dual.platform_fees a
                            <= RoadToBillions.Dual.platform_fees b))
      with (rows := hours) (s := RoadToBillions.Dual.init c) as (sts & E & HI & HS);
      [| apply DualFacts.dual_init_Inv; exact Hc | exact Hd |].
    + intros s r Hs Hr; destruct (DualFacts.dual_step_ok pct days s r Hdays Hs Hr) as (s' & ? & ? & ?).
      eauto.
    + exists sts; split_and; [exact E | | exact HS].
      apply (Forall_impl _ (fun s H => proj2 (proj2 H)) HI).
  - intros r0 rest c Hc Hrows.
    pose proof (Forall_inv Hrows) as Hr0.
    pose proof Hr0 as (_ & _ & _ & Hclose0).
    set (p0 := c / close_price r0 * 0.999).
    set (f0 := 0 + c / close_price r0 * close_price r0 * 0.001).
    assert (Hp0 : 0 < p0).
    { unfold p0; pose proof (Qdiv_pos c (close_price r0) Hc Hclose0); lra. }
    assert (Hinit : NoStrategyInv.Inv p0 c f0 (NoStrategy.mkState c f0 c p0 0 [])).
    { unfold NoStrategyInv.Inv; simpl; split_and; auto; lra. }
    destruct (trace_exists NoStrategy.loop_body (NoStrategyInv.Inv p0 c f0) positive_prices
                (fun _ _ => True))
      with (rows := r0 :: rest) (s := NoStrategy.mkState c f0 c p0 0 [])
      as (sts & E & HI & _); [| exact Hinit | exact Hrows |].
    + intros s r Hs Hr; destruct (NoStrategyFacts.loop_body_ok p0 c f0 s r Hs Hr) as (s' & ? & ?).
      eauto.
    + exists (NoStrategy.mkState c f0 c p0 0 []), sts; split_and.
      * apply NoStrategyFacts.enter_ok; assumption.
      * reflexivity.
      * exact Hp0.
      * exact E.
      * exact (NoStrategyFacts.trace_marks _ _ _ E).
Qed.

Lemma C10_cash_invariant_witness :
  (exists sts, trace (Simple.step Wayne.simple_exit) (Simple.init 1000) entry_then_dip = Ok sts /\
     Forall SimpleInv.cash_inv sts /\
     Sorted (fun a b => Simple.platform_fees a <= Simple.platform_fees b)
       (Simple.init 1000 :: sts)) /\
  (exists s0 sts, NoStrategy.enter one_day 1000 = Ok s0 /\
     NoStrategy.positions s0 = 1000 / close_price (bar 0 100 100 100 100 true) * 0.999 /\
     0 < NoStrategy.positions s0 /\
     trace NoStrategy.loop_body s0 one_day = Ok sts /\
     Forall2 (fun s row => NoStrategy.positions s = NoStrategy.positions s0 /\
                NoStrategy.platform_fees s = NoStrategy.platform_fees s0 /\
                exists pre, NoStrategy.capital_curve s =
                              pre ++ [NoStrategy.positions s0 * close_price row])
       sts one_day).
Proof.
  destruct C10_cash_invariant as (HS & _ & _ & HN); split.
  - apply HS; [reflexivity |];
      repeat (apply Forall_cons || apply Forall_nil);
      unfold positive_prices; simpl; split_and; reflexivity.
  - apply HN; [reflexivity |];
      repeat (apply Forall_cons || apply Forall_nil);
      unfold positive_prices; simpl; split_and; reflexivity.
Defined.

End Claims.

(** * Further properties of the code *)

(** ** Loops *)

Lemma foldM_app {St R : Type} (step : St -> R -> result St) l1 l2 s :
  foldM step s (l1 ++ l2) = (s1 <- foldM step s l1 ;; foldM step s1 l2).
Proof.
  revert s; induction l1 as [|r l1 IH]; intros s; simpl; [reflexivity|].
  destruct (step s r); simpl; [apply IH | reflexivity].
Qed.

Lemma foldM_inv {St R : Type} (step : St -> R -> result St) (I : St -> Prop) :
  (forall s r s', I s -> step s r = Ok s' -> I s') ->
  forall rows s s', I s -> foldM step s rows = Ok s' -> I s'.
Proof.
  intros Hstep rows; induction rows as [|r rows IH]; intros s s' Hs H; simpl in H.
  - inversion H; subst; exact Hs.
  - apply bind_Ok in H as (s1 & E1 & H); eapply IH; [eapply Hstep; eauto | exact H].
Qed.

(** A relation between consecutive states, kept by every step from the
    states satisfying [I], holds along the whole trace. *)
Lemma trace_sorted {St R : Type} (step : St -> R -> result St) (I : St -> Prop)
  (P : R -> Prop) (le : St -> St -> Prop) :
  (forall s r s', I s -> P r -> step s r = Ok s' -> I s' /\ le s s') ->
  forall rows s sts, I s -> Forall P rows -> trace step s rows = Ok sts ->
  Sorted le (s :: sts).
Proof.
  intros Hstep rows; induction rows as [|r rows IH]; intros s sts Hs Hrows H; simpl in H.
  - inversion H; subst; repeat constructor.
  - inversion Hrows as [|? ? Hr Hrs]; subst.
    apply bind_Ok in H as (s1 & E1 & H); apply bind_Ok in H as (l & E2 & H).
    inversion H; subst.
    destruct (Hstep s r s1 Hs Hr E1) as [I1 L1].
    constructor; [eapply IH; eauto | constructor; exact L1].
Qed.

(** ** Running drawdown *)

Lemma running_drawdown_from_compat l : forall p p' d d',
  p == p' -> d == d' -> running_drawdown_from p d l == running_drawdown_from p' d' l.
Proof.
  induction l as [|x l IH]; intros p p' d d' Hp Hd; simpl; [exact Hd|].
  apply IH; rewrite Hp; [reflexivity | rewrite Hd; reflexivity].
Qed.

Lemma py_max_Qmax_comm a b : py_max a b == Qmax b a.
Proof. rewrite ApplyFacts.py_max_Qmax; apply Q.max_comm. Qed.

Section RunningDrawdown.
Context {St R : Type} (step : St -> R -> result St).
Context (curve : St -> list Q) (pk dd : St -> Q).
(** One step appends [x] to the curve and updates the peak and the
    drawdown with it. *)
Hypothesis step_record : forall s r s', step s r = Ok s' ->
  exists x, curve s' = curve s ++ [x] /\ pk s' == Qmax (pk s) x /\
    dd s' == Qmax (dd s) ((Qmax (pk s) x - x) / Qmax (pk s) x).

Lemma foldM_running rows : forall s s', foldM step s rows = Ok s' ->
  exists ext, curve s' = curve s ++ ext /\
    dd s' == running_drawdown_from (pk s) (dd s) ext.
Proof.
  induction rows as [|r rows IH]; intros s s' H; simpl in H.
  - inversion H; subst; exists []; rewrite app_nil_r; split; reflexivity.
  - apply bind_Ok in H as (s1 & E1 & H).
    destruct (IH s1 s' H) as (ext & C & D).
    destruct (step_record s r s1 E1) as (x & Cx & Px & Dx).
    exists (x :: ext); split.
    + rewrite C, Cx, <- app_assoc; reflexivity.
    + rewrite D; simpl; apply running_drawdown_from_compat; assumption.
Qed.

End RunningDrawdown.

(** ** The bookkeeping steps *)

Module SimpleSteps.
Import Simple.

Lemma trade_keeps e s row s1 : trade e s row = Ok s1 ->
  peak s1 = peak s /\ drawdown s1 = drawdown s /\ capital_curve s1 = capital_curve s /\
  current_capital s1 = current_capital s.
Proof.
  unfold trade; intros H.
  destruct (py_eq (positions s) 0).
  - destruct (buy row && py_lt 0 (capital s)).
    + destruct (py_div (capital s) (close_price row)); simpl in H; inversion H; subst;
        simpl; auto.
    + inversion H; subst; auto.
  - destruct (e row); inversion H; subst; simpl; auto.
Qed.

Lemma record_spec s row s' : record s row = Ok s' ->
  capital_curve s' = capital_curve s ++ [current_capital s'] /\
  peak s' = py_max (current_capital s') (peak s) /\
  drawdown s' = py_max ((peak s' - current_capital s') / peak s') (drawdown s) /\
  positions s' = positions s /\ capital s' = capital s /\
  current_capital s' =
    (if py_eq (positions s) 0 then capital s else positions s * close_price row).
Proof.
  unfold record; intros H; apply bind_Ok in H as (x & Ex & H).
  unfold py_div in Ex; destruct (py_eq _ 0); inversion Ex; subst.
  inversion H; subst; simpl; split_and; reflexivity.
Qed.

Lemma step_record e s row s' : step e s row = Ok s' ->
  exists x, capital_curve s' = capital_curve s ++ [x] /\ peak s' == Qmax (peak s) x /\
    drawdown s' == Qmax (drawdown s) ((Qmax (peak s) x - x) / Qmax (peak s) x) /\
    current_capital s' = x.
Proof.
  unfold step; intros H; apply bind_Ok in H as (s1 & E1 & H).
  apply trade_keeps in E1 as (P1 & D1 & C1 & _).
  apply record_spec in H as (C & P & D & _).
  exists (current_capital s'); rewrite <- P1, <- D1, <- C1; split_and; [exact C | | | reflexivity].
  - rewrite P; apply py_max_Qmax_comm.
  - rewrite D, py_max_Qmax_comm, P, py_max_Qmax_comm; reflexivity.
Qed.

End SimpleSteps.

Module TrailingSteps.
Import Wayne.Trailing.

Lemma trailing_trade_keeps slp tsp s row s1 : trade slp tsp s row = Ok s1 ->
  peak s1 = peak s /\ drawdown s1 = drawdown s /\ capital_curve s1 = capital_curve s /\
  current_capital s1 = current_capital s.
Proof.
  unfold trade; intros H.
  destruct (py_eq (positions s) 0).
  - destruct (buy row && py_lt 0 (capital s)).
    + destruct (py_div (capital s) (close_price row)); simpl in H; inversion H; subst;
        simpl; auto.
    + inversion H; subst; auto.
  - destruct (py_lt (trailing_stop s) (high_price row)); [inversion H; subst; simpl; auto|].
    destruct (py_lt (low_price row) (stop_loss s)); inversion H; subst; simpl; auto.
Qed.

Lemma trailing_record_spec s row s' : record s row = Ok s' ->
  capital_curve s' = capital_curve s ++ [current_capital s'] /\
  peak s' = py_max (current_capital s') (peak s) /\
  drawdown s' = py_max ((peak s' - current_capital s') / peak s') (drawdown s) /\
  positions s' = positions s /\ capital s' = capital s /\
  stop_loss s' = stop_loss s /\ trailing_stop s' = trailing_stop s /\
  current_capital s' =
    (if py_eq (positions s) 0 then capital s else positions s * close_price row).
Proof.
  unfold record; intros H; apply bind_Ok in H as (x & Ex & H).
  unfold py_div in Ex; destruct (py_eq _ 0); inversion Ex; subst.
  inversion H; subst; simpl; split_and; reflexivity.
Qed.

Lemma trailing_step_record slp tsp s row s' : step slp tsp s row = Ok s' ->
  exists x, capital_curve s' = capital_curve s ++ [x] /\ peak s' == Qmax (peak s) x /\
    drawdown s' == Qmax (drawdown s) ((Qmax (peak s) x - x) / Qmax (peak s) x) /\
    current_capital s' = x.
Proof.
  unfold step; intros H; apply bind_Ok in H as (s1 & E1 & H).
  apply trailing_trade_keeps in E1 as (P1 & D1 & C1 & _).
  apply trailing_record_spec in H as (C & P & D & _).
  exists (current_capital s'); rewrite <- P1, <- D1, <- C1; split_and; [exact C | | | reflexivity].
  - rewrite P; apply py_max_Qmax_comm.
  - rewrite D, py_max_Qmax_comm, P, py_max_Qmax_comm; reflexivity.
Qed.

End TrailingSteps.

Module NoStrategySteps.
Import NoStrategy.

Lemma loop_body_spec s row s' : loop_body s row = Ok s' ->
  capital_curve s' = capital_curve s ++ [positions s * close_price row] /\
  peak s' == Qmax (peak s) (positions s * close_price row) /\
  drawdown s' == Qmax (drawdown s)
    ((Qmax (peak s) (positions s * close_price row) - positions s * close_price row)
     / Qmax (peak s) (positions s * close_price row)) /\
  positions s' = positions s.
Proof.
  unfold loop_body; intros H; apply bind_Ok in H as (x & Ex & H).
  unfold py_div in Ex; destruct (py_eq _ 0); inversion Ex; subst.
  inversion H; subst; simpl; split_and; [reflexivity | apply py_max_Qmax_comm | | reflexivity].
  rewrite !py_max_Qmax_comm; reflexivity.
Qed.

Lemma enter_spec data c s0 : enter data c = Ok s0 ->
  exists first, iloc_first data = Ok first /\ ~ close_price first == 0 /\
    s0 = mkState c (0 + c / close_price first * close_price first * 0.001) c
           (c / close_price first * 0.999) 0 [].
Proof.
  unfold enter; intros H; apply bind_Ok in H as (first & Ef & H).
  apply bind_Ok in H as (p & Ep & H).
  unfold py_div in Ep; destruct (py_eq (close_price first) 0) eqn:Z0; inversion Ep; subst.
  inversion H; subst; exists first; split_and; auto; py_facts; exact Z0.
Qed.

Lemma apply_spec data c r : apply data c = Ok r ->
  exists s0 s last, enter data c = Ok s0 /\ foldM loop_body s0 data = Ok s /\
    iloc_last data = Ok last /\ 0 < c /\
    r = mkInvestResult c (positions s * close_price last * 0.999) (positions s)
          (drawdown s) (platform_fees s + positions s * close_price last * 0.001)
          (capital_curve s).
Proof.
  unfold apply; intros H.
  apply bind_Ok in H as (s0 & E0 & H); apply bind_Ok in H as (s & E & H).
  apply bind_Ok in H as (last & El & H).
  apply InvestResult_new_Ok in H as (-> & Hc & _).
  exists s0, s, last; split_and; auto.
Qed.

End NoStrategySteps.

Module DualSteps.
Import RoadToBillions.Dual.

Lemma stop_phase_keeps pct s row :
  current_capital (stop_phase pct s row) = current_capital s /\
  capital_curve (stop_phase pct s row) = capital_curve s /\
  day (stop_phase pct s row) = day s.
Proof.
  unfold stop_phase; destruct (negb (py_eq (positions s) 0)); [cbv zeta|split_and; reflexivity].
  destruct (py_lt _ _); simpl; split_and; reflexivity.
Qed.

Lemma day_entry_keeps pct s d s1 : day_entry pct s d = Ok s1 ->
  current_capital s1 = current_capital s /\ capital_curve s1 = capital_curve s /\
  day s1 = day s.
Proof.
  unfold day_entry; intros H.
  destruct (py_eq (positions s) 0); [|inversion H; subst; auto].
  destruct (buy d && py_lt 0 (capital s)); [|inversion H; subst; auto].
  destruct (py_div (capital s) (close_price d)); simpl in H; inversion H; subst; simpl; auto.
Qed.

Lemma day_record_spec s d s' : day_record s d = Ok s' ->
  capital_curve s' = capital_curve s ++ [current_capital s'] /\
  positions s' = positions s /\ stop_loss s' = stop_loss s /\ day s' = day s /\
  current_capital s' =
    (if py_eq (positions s) 0 then capital s else positions s * close_price d).
Proof.
  unfold day_record; intros H; apply bind_Ok in H as (x & Ex & H).
  inversion H; subst; simpl; split_and; reflexivity.
Qed.

Lemma step_curve pct days s row s' : step pct days s row = Ok s' ->
  (current_capital s' = current_capital s /\ capital_curve s' = capital_curve s) \/
  capital_curve s' = capital_curve s ++ [current_capital s'].
Proof.
  unfold step, day_phase; intros H.
  destruct (stop_phase_keeps pct s row) as (K1 & K2 & _).
  destruct (nth_error days (day (stop_phase pct s row))) as [d|];
    [|inversion H; subst; left; split; assumption].
  destruct (Z.eqb (open_time row) (open_time d)); [|inversion H; subst; left; split; assumption].
  apply bind_Ok in H as (s1 & E1 & H).
  apply day_entry_keeps in E1 as (_ & C1 & _).
  apply day_record_spec in H as (C & _).
  right; rewrite C; simpl; rewrite C1, K2; reflexivity.
Qed.

End DualSteps.

Lemma iloc_last_app l a : iloc_last (l ++ [a]) = Ok a.
Proof. unfold iloc_last; rewrite rev_unit; reflexivity. Qed.

Lemma iloc_last_split data lst : iloc_last data = Ok lst -> exists l, data = l ++ [lst].
Proof.
  destruct data as [|r rest] eqn:D; [discriminate|].
  destruct (exists_last (l := r :: rest) ltac:(discriminate)) as (l & a & E).
  rewrite E, iloc_last_app; intros H; inversion H; subst; eauto.
Qed.

Lemma Qdiv_mult_nonzero c p : 0 < c -> ~ p == 0 -> ~ c / p * 0.999 == 0.
Proof.
  intros Hc Hp H.
  assert (E : c == c / p * 0.999 * p * (1000 # 999)) by (field; exact Hp).
  rewrite H in E; lra.
Qed.

Module NoStrategyCurve.
Import NoStrategy.

Lemma fold_curve rows : forall s s', foldM loop_body s rows = Ok s' ->
  positions s' = positions s /\
  capital_curve s' = capital_curve s ++ map (fun row => positions s * close_price row) rows.
Proof.
  induction rows as [|r rows IH]; intros s s' H; simpl in H.
  - inversion H; subst; rewrite app_nil_r; split; reflexivity.
  - apply bind_Ok in H as (s1 & E1 & H).
    apply NoStrategySteps.loop_body_spec in E1 as (C1 & _ & _ & P1).
    destruct (IH s1 s' H) as [P C]; rewrite P, P1; split; [reflexivity|].
    rewrite C, C1, P1, <- app_assoc; reflexivity.
Qed.

End NoStrategyCurve.

Lemma simple_step_close e s row s' : Simple.step e s row = Ok s' ->
  ~ Simple.positions s' == 0 -> Simple.current_capital s' = Simple.positions s' * close_price row.
Proof.
  unfold Simple.step; intros H Hp; apply bind_Ok in H as (s1 & _ & H).
  apply SimpleSteps.record_spec in H as (_ & _ & _ & P & _ & X).
  rewrite X, P; rewrite P in Hp.
  destruct (py_eq (Simple.positions s1) 0) eqn:Z0; [py_facts; contradiction | reflexivity].
Qed.

Lemma trailing_step_close slp tsp s row s' : Wayne.Trailing.step slp tsp s row = Ok s' ->
  ~ Wayne.Trailing.positions s' == 0 ->
  Wayne.Trailing.current_capital s' = Wayne.Trailing.positions s' * close_price row.
Proof.
  unfold Wayne.Trailing.step; intros H Hp; apply bind_Ok in H as (s1 & _ & H).
  apply TrailingSteps.trailing_record_spec in H as (_ & _ & _ & P & _ & _ & _ & X).
  rewrite X, P; rewrite P in Hp.
  destruct (py_eq (Wayne.Trailing.positions s1) 0) eqn:Z0; [py_facts; contradiction | reflexivity].
Qed.

Lemma holding_structure ce p price : ~ p == 0 -> ce = p * price ->
  Report.capital_structure (mkInvestResult 0 ce p 0 0 []) = Report.holding p (ce / p) /\
  ce / p == price.
Proof.
  intros Hp E; unfold Report.capital_structure; simpl.
  assert (Z0 : py_eq p 0 = false) by (apply py_eq_false; exact Hp).
  rewrite Z0; split; [reflexivity|]; rewrite E; field; exact Hp.
Qed.

Lemma structure_fields r :
  Report.capital_structure r =
  Report.capital_structure (mkInvestResult 0 (capital_end r) (positions_end r) 0 0 []).
Proof. reflexivity. Qed.

Lemma foldM_inv_rows {St R : Type} (step : St -> R -> result St) (I : St -> Prop)
  (P : R -> Prop) :
  (forall s r s', I s -> P r -> step s r = Ok s' -> I s') ->
  forall rows s s', I s -> Forall P rows -> foldM step s rows = Ok s' -> I s'.
Proof.
  intros Hstep rows; induction rows as [|r rows IH]; intros s s' Hs Hrows H; simpl in H.
  - inversion H; subst; exact Hs.
  - inversion Hrows; subst.
    apply bind_Ok in H as (s1 & E1 & H); eapply IH; [eapply Hstep; eauto | eauto | exact H].
Qed.

Lemma profit_percentage_floor c ce : 0 < c -> 0 <= ce ->
  exists p, Report.profit_percentage (mkInvestResult c ce 0 0 0 []) = Ok p /\ -100 <= p.
Proof.
  intros Hc Hce; unfold Report.profit_percentage, profit; simpl.
  rewrite py_div_ok by (intros H; rewrite H in Hc; discriminate).
  eexists; split; [reflexivity|].
  assert (Q0 : 0 <= ce / c) by (apply Qle_shift_div_l; [exact Hc | lra]).
  assert (E : (ce - c) / c == ce / c - 1) by (field; intros H; rewrite H in Hc; discriminate).
  rewrite E; lra.
Qed.

Lemma profit_percentage_fields r :
  Report.profit_percentage r =
  Report.profit_percentage (mkInvestResult (capital_start r) (capital_end r) 0 0 0 []).
Proof. reflexivity. Qed.

(** ** The stops of the single-resolution trailing stop *)

Module TrailingStops.
Import Wayne.Trailing.

Section Pct.
Variables slp tsp : Q.
Hypothesis Hslp : slp <= 1.
Hypothesis Htsp : 0 <= tsp.

(** Both stops come from one reference price: the entry close, then the
    highs that lifted them. *)
Lemma trade_stops s row s1 :
  (positions s == 0 \/ exists ref, 0 <= ref /\ stop_loss s == ref * (1 - slp) /\
     trailing_stop s == ref * (1 + tsp)) ->
  positive_prices row -> trade slp tsp s row = Ok s1 ->
  (positions s1 == 0 \/ exists ref, 0 <= ref /\ stop_loss s1 == ref * (1 - slp) /\
     trailing_stop s1 == ref * (1 + tsp)) /\
  (~ positions s == 0 -> ~ positions s1 == 0 ->
     stop_loss s <= stop_loss s1 /\ trailing_stop s <= trailing_stop s1).
Proof.
  intros HI (Ho & Hh & Hl & Hc) H; unfold trade in H.
  destruct (py_eq (positions s) 0) eqn:Z0.
  - split; [|intros Hn; py_facts; contradiction].
    destruct (buy row && py_lt 0 (capital s)).
    + destruct (py_div (capital s) (close_price row)); simpl in H; inversion H; subst; simpl.
      right; exists (close_price row); split_and; [lra | reflexivity | reflexivity].
    + inversion H; subst; exact HI.
  - destruct (py_lt (trailing_stop s) (high_price row)) eqn:T.
    + inversion H; subst; simpl; split.
      * right; exists (high_price row); split_and; [lra | reflexivity | reflexivity].
      * intros _ _; py_facts.
        destruct HI as [HI|(ref & Hr & Hs & Ht)]; [contradiction|].
        assert (Href : ref <= high_price row).
        { assert (0 <= ref * tsp) by (apply Qmult_le_0_compat; assumption).
          assert (ref * (1 + tsp) == ref + ref * tsp) by ring. lra. }
        split.
        -- rewrite Hs; apply Qmult_le_compat_r; [exact Href | lra].
        -- assert (0 <= high_price row * tsp) by (apply Qmult_le_0_compat; lra).
           assert (high_price row * (1 + tsp) == high_price row + high_price row * tsp) by ring.
           lra.
    + destruct (py_lt (low_price row) (stop_loss s)); inversion H; subst; simpl.
      * split; [left; reflexivity | intros _ Hn; exfalso; apply Hn; reflexivity].
      * split; [exact HI | intros _ _; split; apply Qle_refl].
Qed.

Lemma step_stops s row s' :
  (positions s == 0 \/ exists ref, 0 <= ref /\ stop_loss s == ref * (1 - slp) /\
     trailing_stop s == ref * (1 + tsp)) ->
  positive_prices row -> step slp tsp s row = Ok s' ->
  (positions s' == 0 \/ exists ref, 0 <= ref /\ stop_loss s' == ref * (1 - slp) /\
     trailing_stop s' == ref * (1 + tsp)) /\
  (~ positions s == 0 -> ~ positions s' == 0 ->
     stop_loss s <= stop_loss s' /\ trailing_stop s <= trailing_stop s').
Proof.
  intros HI Hr H; unfold step in H; apply bind_Ok in H as (s1 & E1 & H).
  apply TrailingSteps.trailing_record_spec in H as (_ & _ & _ & P & _ & SL & TS & _).
  rewrite P, SL, TS; exact (trade_stops s row s1 HI Hr E1).
Qed.

End Pct.
End TrailingStops.

(** ** Maximum and minimum of a list *)

Lemma fold_max_spec rest : forall m,
  let r := fold_left (fun m y => if py_lt m y then y else m) rest m in
  (r = m \/ In r rest) /\ m <= r /\ Forall (fun y => y <= r) rest.
Proof.
  induction rest as [|y rest IH]; intros m; simpl.
  - split_and; [left; reflexivity | apply Qle_refl | constructor].
  - destruct (py_lt m y) eqn:L; py_facts.
    + destruct (IH y) as (Hin & Hy & Hf); split_and.
      * right; destruct Hin as [->|Hin]; [left; reflexivity | right; exact Hin].
      * lra.
      * constructor; assumption.
    + destruct (IH m) as (Hin & Hm & Hf); split_and.
      * destruct Hin as [->|Hin]; [left; reflexivity | right; right; exact Hin].
      * exact Hm.
      * constructor; [lra | assumption].
Qed.

Lemma fold_min_spec rest : forall m,
  let r := fold_left (fun m y => if py_lt y m then y else m) rest m in
  (r = m \/ In r rest) /\ r <= m /\ Forall (fun y => r <= y) rest.
Proof.
  induction rest as [|y rest IH]; intros m; simpl.
  - split_and; [left; reflexivity | apply Qle_refl | constructor].
  - destruct (py_lt y m) eqn:L; py_facts.
    + destruct (IH y) as (Hin & Hy & Hf); split_and.
      * right; destruct Hin as [->|Hin]; [left; reflexivity | right; exact Hin].
      * lra.
      * constructor; assumption.
    + destruct (IH m) as (Hin & Hm & Hf); split_and.
      * destruct Hin as [->|Hin]; [left; reflexivity | right; right; exact Hin].
      * exact Hm.
      * constructor; [lra | assumption].
Qed.

Lemma py_list_max_spec l :
  (Report.py_list_max l = None <-> l = []) /\
  (forall m, Report.py_list_max l = Some m -> In m l /\ Forall (fun y => y <= m) l).
Proof.
  destruct l as [|x rest]; simpl.
  - split; [tauto | discriminate].
  - split; [split; discriminate|].
    intros m H; inversion H; subst.
    destruct (fold_max_spec rest x) as (Hin & Hx & Hf); split.
    + destruct Hin as [->|Hin]; [left; reflexivity | right; exact Hin].
    + constructor; assumption.
Qed.

Lemma py_list_min_spec l :
  (Report.py_list_min l = None <-> l = []) /\
  (forall m, Report.py_list_min l = Some m -> In m l /\ Forall (fun y => m <= y) l).
Proof.
  destruct l as [|x rest]; simpl.
  - split; [tauto | discriminate].
  - split; [split; discriminate|].
    intros m H; inversion H; subst.
    destruct (fold_min_spec rest x) as (Hin & Hx & Hf); split.
    + destruct Hin as [->|Hin]; [left; reflexivity | right; exact Hin].
    + constructor; assumption.
Qed.

(** ** The table of [evaluate_symbols] *)

Module EvaluateFacts.
Import Evaluate Ranking RankingOrder.

Lemma collect_length em coins : length (collect em coins) = length (filter eligible coins).
Proof.
  induction coins as [|ci coins IH]; simpl; [reflexivity|].
  destruct (eligible ci); simpl; rewrite ?IH; reflexivity.
Qed.

Lemma collect_In em coins x : In x (collect em coins) <->
  exists ci, In ci coins /\ eligible ci = true /\
    x = ((coin ci ++ "USDT")%string, em (coin ci ++ "USDT")%string).
Proof.
  induction coins as [|ci coins IH]; simpl.
  - split; [tauto | intros (ci & [] & _)].
  - destruct (eligible ci) eqn:El; simpl; rewrite IH; split.
    + intros [<-|(cj & Hin & He & ->)]; [exists ci; auto | exists cj; auto].
    + intros (cj & [<-|Hin] & He & ->); [left; reflexivity | right; exists cj; auto].
    + intros (cj & Hin & He & ->); exists cj; auto.
    + intros (cj & [<-|Hin] & He & ->); [congruence | exists cj; auto].
Qed.

Lemma sort_perm l : Permutation (sort_desc l) l.
Proof. unfold sort_desc; rewrite RankingFacts.fold_perm, app_nil_r; reflexivity. Qed.

Lemma sort_sorted l : Sorted desc (sort_desc l).
Proof. unfold sort_desc; apply RankingFacts.fold_sorted; constructor. Qed.

Lemma StronglySorted_app_between {A : Type} (R : A -> A -> Prop) l1 l2 a b :
  StronglySorted R (l1 ++ l2) -> In a l1 -> In b l2 -> R a b.
Proof.
  induction l1 as [|x l1 IH]; simpl; [intros _ []|].
  intros H [<-|Ha] Hb; apply StronglySorted_inv in H as [H F].
  - rewrite Forall_forall in F; apply F, in_or_app; right; exact Hb.
  - apply IH; assumption.
Qed.

Lemma Sorted_firstn {A : Type} (R : A -> A -> Prop) n l :
  Sorted R l -> Sorted R (firstn n l).
Proof.
  revert l; induction n as [|n IH]; intros l H; simpl; [constructor|].
  destruct l as [|x l]; [constructor|].
  apply Sorted_inv in H as [H Hd]; constructor; [apply IH; exact H|].
  destruct n; simpl; [constructor|].
  destruct l; simpl; [constructor|]; inversion Hd; constructor; assumption.
Qed.

Lemma Sorted_map {A B : Type} (R : B -> B -> Prop) (f : A -> B) l :
  Sorted (fun a b => R (f a) (f b)) l -> Sorted R (map f l).
Proof.
  induction l as [|x l IH]; intros H; simpl; [constructor|].
  apply Sorted_inv in H as [H Hd]; constructor; [apply IH; exact H|].
  destruct l; simpl; [constructor|]; inversion Hd; constructor; assumption.
Qed.

End EvaluateFacts.

(** ** The download loop *)

Module DownloadFacts.
Import Download.

Lemma extend_hours_Ok raw fuel : forall kd kh h,
  extend_hours raw fuel kd kh = Some (Ok h) ->
  (exists ext, h = kh ++ ext) /\
  exists ld lh, iloc_last kd = Ok ld /\ iloc_last h = Ok lh /\
    (open_time ld <= open_time lh)%Z.
Proof.
  induction fuel as [|fuel IH]; intros kd kh h H; simpl in H; [discriminate|].
  destruct (iloc_last kd) as [ld|e] eqn:Ed; cbn [bind] in H; [|discriminate].
  destruct (iloc_last kh) as [lh|e] eqn:Eh; cbn [bind] in H; [|discriminate].
  destruct (Z.ltb (open_time lh) (open_time ld)) eqn:L.
  - apply IH in H as ((ext & ->) & P); rewrite Ed in P; split; [|exact P].
    exists (raw (open_time lh + 3600000)%Z ++ ext); rewrite app_assoc; reflexivity.
  - inversion H; subst; split; [exists []; rewrite app_nil_r; reflexivity|].
    exists ld, lh; split_and; [reflexivity | exact Eh | apply Z.ltb_ge; exact L].
Qed.

Lemma extend_hours_stall raw kd ld lh :
  iloc_last kd = Ok ld -> (open_time lh < open_time ld)%Z ->
  raw (open_time lh + 3600000)%Z = [] ->
  forall fuel kh, iloc_last kh = Ok lh -> extend_hours raw fuel kd kh = None.
Proof.
  intros Ed L Hraw fuel; induction fuel as [|fuel IH]; intros kh Eh; simpl; [reflexivity|].
  rewrite Ed, Eh; cbn [bind].
  apply Z.ltb_lt in L; rewrite L, Hraw, app_nil_r; apply IH; exact Eh.
Qed.

End DownloadFacts.

Module Extras.
Import Samples.

(** ** Totality of the single-resolution strategies *)

(** X1. With a positive starting capital and positive prices,
    [SimpleStrategy.apply] (with either exit rule) and the
    single-resolution [TrailingStopStrategy.apply] raise nothing: no
    division by zero, and the [InvestResult] they build passes its
    validation. *)
Theorem X1_simple_trailing_total :
  (forall exit_signal data c, 0 < c -> Forall positive_prices data ->
     exists r, Simple.apply exit_signal data c = Ok r) /\
  (forall slp tsp data c, 0 < c -> Forall positive_prices data ->
     exists r, Wayne.Trailing.apply slp tsp data c = Ok r).
Proof.
  split.
  - intros e data c Hc Hd.
    destruct (foldM_exists (Simple.step e) SimpleInv.Inv positive_prices)
      with (rows := data) (s := Simple.init c) as (s & E & Hpk & Hdd & Hp & _);
      [| apply SimpleFacts.simple_init_Inv; exact Hc | exact Hd |].
    + intros s r Hs Hr; destruct (SimpleFacts.simple_step_ok e s r Hs Hr) as (s' & ? & ? & _).
      eauto.
    + unfold Simple.apply; rewrite E; cbn [bind].
      rewrite InvestResult_new_valid by assumption; eauto.
  - intros slp tsp data c Hc Hd.
    destruct (foldM_exists (Wayne.Trailing.step slp tsp) TrailingInv.Inv positive_prices)
      with (rows := data) (s := Wayne.Trailing.init c) as (s & E & Hpk & Hdd & Hp & _);
      [| apply TrailingFacts.trailing_init_Inv; exact Hc | exact Hd |].
    + intros s r Hs Hr.
      destruct (TrailingFacts.trailing_step_ok slp tsp s r Hs Hr) as (s' & ? & ? & _).
      eauto.
    + unfold Wayne.Trailing.apply; rewrite E; cbn [bind].
      rewrite InvestResult_new_valid by assumption; eauto.
Qed.

Lemma X1_simple_trailing_total_witness :
  (exists r, Wayne.simple_apply entry_then_dip 1000 = Ok r) /\
  (exists r, Wayne.Trailing.apply 0.2 0.001 entry_then_dip 1000 = Ok r).
Proof.
  split; [apply (proj1 X1_simple_trailing_total) | apply (proj2 X1_simple_trailing_total)];
    try reflexivity;
    repeat (apply Forall_cons || apply Forall_nil);
    unfold positive_prices; simpl; split_and; reflexivity.
Defined.

(** ** The drawdown field *)

(** X2. The drawdown returned by [SimpleStrategy], the single-resolution
    [TrailingStopStrategy] and [NoStrategy] is the running maximum, over
    the returned capital curve, of (peak - capital) / peak, the peak
    starting at the starting capital. *)
Theorem X2_drawdown_running_max :
  (forall exit_signal data c r, Simple.apply exit_signal data c = Ok r ->
     drawdown r == running_drawdown (capital_start r) (capital_curve r)) /\
  (forall slp tsp data c r, Wayne.Trailing.apply slp tsp data c = Ok r ->
     drawdown r == running_drawdown (capital_start r) (capital_curve r)) /\
  (forall data c r, NoStrategy.apply data c = Ok r ->
     drawdown r == running_drawdown (capital_start r) (capital_curve r)).
Proof.
  split_and.
  - intros e data c r H; apply ApplyFacts.simple_Ok in H as (s & E & -> & _).
    destruct (foldM_running (Simple.step e) Simple.capital_curve Simple.peak Simple.drawdown)
      with (rows := data) (s := Simple.init c) (s' := s) as (ext & C & D); [|exact E|].
    + intros s0 r s1 H; destruct (SimpleSteps.step_record e s0 r s1 H) as (x & ? & ? & ? & _).
      eauto.
    + simpl in C; simpl; rewrite C; exact D.
  - intros slp tsp data c r H; apply ApplyFacts.trailing_Ok in H as (s & E & -> & _).
    destruct (foldM_running (Wayne.Trailing.step slp tsp) Wayne.Trailing.capital_curve
                Wayne.Trailing.peak Wayne.Trailing.drawdown)
      with (rows := data) (s := Wayne.Trailing.init c) (s' := s) as (ext & C & D); [|exact E|].
    + intros s0 r s1 H.
      destruct (TrailingSteps.trailing_step_record slp tsp s0 r s1 H) as (x & ? & ? & ? & _).
      eauto.
    + simpl in C; simpl; rewrite C; exact D.
  - intros data c r H.
    apply NoStrategySteps.apply_spec in H as (s0 & s & last & E0 & E & _ & _ & ->).
    apply NoStrategySteps.enter_spec in E0 as (first & _ & _ & ->).
    destruct (foldM_running NoStrategy.loop_body NoStrategy.capital_curve NoStrategy.peak
                NoStrategy.drawdown)
      with (rows := data) (s := NoStrategy.mkState c (0 + c / close_price first * close_price first * 0.001) c
           (c / close_price first * 0.999) 0 []) (s' := s) as (ext & C & D); [|exact E|].
    + intros s1 r s2 H; apply NoStrategySteps.loop_body_spec in H as (? & ? & ? & _).
      eauto.
    + simpl in C; simpl; rewrite C; exact D.
Qed.

Lemma X2_drawdown_running_max_witness :
  exists r, Wayne.simple_apply entry_then_dip 1000 = Ok r /\
    drawdown r == running_drawdown (capital_start r) (capital_curve r).
Proof.
  eexists; split; [reflexivity |].
  apply (proj1 X2_drawdown_running_max Wayne.simple_exit entry_then_dip 1000); reflexivity.
Defined.

(** ** capital_end and the curve *)

(** X3. [SimpleStrategy], the single-resolution [TrailingStopStrategy]
    and the dual-resolution [TrailingStopStrategy] return as capital_end
    the last point of the capital curve, or the starting capital when the
    curve is empty. In the dual variant the curve only grows at matched
    daily rows, so a stop-loss exit on a later hourly row changes
    positions_end but not capital_end. *)
Theorem X3_capital_end_last_point :
  (forall exit_signal data c r, Simple.apply exit_signal data c = Ok r ->
     capital_end r = last (capital_curve r) (capital_start r)) /\
  (forall slp tsp data c r, Wayne.Trailing.apply slp tsp data c = Ok r ->
     capital_end r = last (capital_curve r) (capital_start r)) /\
  (forall pct days hours c r, RoadToBillions.Dual.apply pct days hours c = Ok r ->
     capital_end r = last (capital_curve r) (capital_start r)).
Proof.
  split_and.
  - intros e data c r H; apply ApplyFacts.simple_Ok in H as (s & E & -> & _); simpl.
    refine (foldM_inv (Simple.step e)
              (fun s => Simple.current_capital s = last (Simple.capital_curve s) c)
              _ data (Simple.init c) s eq_refl E).
    intros s0 r s1 _ H; destruct (SimpleSteps.step_record e s0 r s1 H) as (x & C & _ & _ & X).
    rewrite C, X, last_last; reflexivity.
  - intros slp tsp data c r H; apply ApplyFacts.trailing_Ok in H as (s & E & -> & _); simpl.
    refine (foldM_inv (Wayne.Trailing.step slp tsp)
              (fun s => Wayne.Trailing.current_capital s = last (Wayne.Trailing.capital_curve s) c)
              _ data (Wayne.Trailing.init c) s eq_refl E).
    intros s0 r s1 _ H; destruct (TrailingSteps.trailing_step_record slp tsp s0 r s1 H) as (x & C & _ & _ & X).
    rewrite C, X, last_last; reflexivity.
  - intros pct days hours c r H; apply ApplyFacts.dual_Ok in H as (s & E & -> & _); simpl.
    refine (foldM_inv (RoadToBillions.Dual.step pct days)
              (fun s => RoadToBillions.Dual.current_capital s
                        = last (RoadToBillions.Dual.capital_curve s) c)
              _ hours (RoadToBillions.Dual.init c) s eq_refl E).
    intros s0 r s1 I H; destruct (DualSteps.step_curve pct days s0 r s1 H) as [[X C]|C].
    + rewrite X, C; exact I.
    + rewrite C, last_last; reflexivity.
Qed.

Lemma X3_capital_end_last_point_witness :
  exists r, RoadToBillions.Dual.apply 0.2 one_day ExtraSamples.stale_hours 1000 = Ok r /\
    capital_end r = last (capital_curve r) (capital_start r) /\
    positions_end r == 0 /\ capital_end r == 999.
Proof.
  eexists; split_and; [reflexivity | | vm_compute; reflexivity | vm_compute; reflexivity].
  apply (proj2 (proj2 X3_capital_end_last_point) 0.2 one_day ExtraSamples.stale_hours 1000).
  reflexivity.
Defined.

(** ** Capital structure of the result *)

(** X4. [NoStrategy] (both files): its capital curve is the positions
    bought at the first close times each close price, before the exit
    fee; capital_end is 0.999 times the last point of the curve. As
    positions_end keeps the positions although they were sold at the end,
    [capital_structure] never reports liquidity: it shows positions_end
    and the price 0.999 x last close. *)
Theorem X4_no_strategy_curve_structure data c r :
  NoStrategy.apply data c = Ok r ->
  exists first lst, iloc_first data = Ok first /\ iloc_last data = Ok lst /\
    positions_end r = c / close_price first * 0.999 /\ ~ positions_end r == 0 /\
    capital_curve r = map (fun row => positions_end r * close_price row) data /\
    capital_end r = last (capital_curve r) 0 * 0.999 /\
    Report.capital_structure r =
      Report.holding (positions_end r) (capital_end r / positions_end r) /\
    capital_end r / positions_end r == close_price lst * 0.999.
Proof.
  intros H.
  apply NoStrategySteps.apply_spec in H as (s0 & s & lst & E0 & E & El & Hc & ->).
  apply NoStrategySteps.enter_spec in E0 as (first & Ef & Hz & ->).
  apply NoStrategyCurve.fold_curve in E as [P C]; simpl in P, C.
  destruct (iloc_last_split data lst El) as (l & Dl).
  assert (Hp : ~ c / close_price first * 0.999 == 0) by (apply Qdiv_mult_nonzero; assumption).
  exists first, lst; simpl; rewrite P, C; split_and; try assumption; try reflexivity.
  - rewrite Dl, map_app; cbn [map]; rewrite last_last; reflexivity.
  - unfold Report.capital_structure; simpl.
    assert (Z0 : py_eq (c / close_price first * 0.999) 0 = false) by (apply py_eq_false; exact Hp).
    rewrite Z0; reflexivity.
  - field; split; [exact Hz | intros H0; lra].
Qed.

Lemma X4_no_strategy_curve_structure_witness :
  exists first lst r, NoStrategy.apply entry_then_dip 1000 = Ok r /\
    iloc_first entry_then_dip = Ok first /\ iloc_last entry_then_dip = Ok lst /\
    positions_end r = 1000 / close_price first * 0.999 /\ ~ positions_end r == 0 /\
    capital_curve r = map (fun row => positions_end r * close_price row) entry_then_dip /\
    capital_end r = last (capital_curve r) 0 * 0.999 /\
    Report.capital_structure r =
      Report.holding (positions_end r) (capital_end r / positions_end r) /\
    capital_end r / positions_end r == close_price lst * 0.999.
Proof.
  destruct (NoStrategy.apply entry_then_dip 1000) as [r|e] eqn:E;
    [| vm_compute in E; discriminate].
  destruct (X4_no_strategy_curve_structure entry_then_dip 1000 r E) as (first & lst & P).
  exists first, lst, r; split; [reflexivity | exact P].
Defined.

(** X5. When [SimpleStrategy] (either exit rule) or the single-resolution
    [TrailingStopStrategy] ends holding a position, capital_end is
    positions_end times the close of the last row, and [capital_structure]
    shows positions_end and that close price. *)
Theorem X5_holding_structure_last_close :
  (forall exit_signal data c r, Simple.apply exit_signal data c = Ok r ->
     ~ positions_end r == 0 ->
     exists lst, iloc_last data = Ok lst /\ capital_end r = positions_end r * close_price lst /\
       Report.capital_structure r =
         Report.holding (positions_end r) (capital_end r / positions_end r) /\
       capital_end r / positions_end r == close_price lst) /\
  (forall slp tsp data c r, Wayne.Trailing.apply slp tsp data c = Ok r ->
     ~ positions_end r == 0 ->
     exists lst, iloc_last data = Ok lst /\ capital_end r = positions_end r * close_price lst /\
       Report.capital_structure r =
         Report.holding (positions_end r) (capital_end r / positions_end r) /\
       capital_end r / positions_end r == close_price lst).
Proof.
  split.
  - intros e data c r H Hp; apply ApplyFacts.simple_Ok in H as (s & E & -> & _).
    assert (Hne : data <> []) by (intros ->; simpl in E; inversion E; subst; apply Hp; reflexivity).
    destruct (exists_last Hne) as (l & lst & ->); rewrite iloc_last_app.
    rewrite foldM_app in E; apply bind_Ok in E as (s1 & _ & E); simpl in E.
    apply bind_Ok in E as (s2 & E & H); inversion H; subst s2.
    pose proof (simple_step_close e s1 lst s E Hp) as X.
    destruct (holding_structure _ _ _ Hp X) as [HS1 HS2].
    exists lst; split_and; [reflexivity | exact X | exact HS1 | exact HS2].
  - intros slp tsp data c r H Hp; apply ApplyFacts.trailing_Ok in H as (s & E & -> & _).
    assert (Hne : data <> []) by (intros ->; simpl in E; inversion E; subst; apply Hp; reflexivity).
    destruct (exists_last Hne) as (l & lst & ->); rewrite iloc_last_app.
    rewrite foldM_app in E; apply bind_Ok in E as (s1 & _ & E); simpl in E.
    apply bind_Ok in E as (s2 & E & H); inversion H; subst s2.
    pose proof (trailing_step_close slp tsp s1 lst s E Hp) as X.
    destruct (holding_structure _ _ _ Hp X) as [HS1 HS2].
    exists lst; split_and; [reflexivity | exact X | exact HS1 | exact HS2].
Qed.

Lemma X5_holding_structure_last_close_witness :
  exists lst r, Wayne.simple_apply one_day 1000 = Ok r /\
    iloc_last one_day = Ok lst /\ capital_end r = positions_end r * close_price lst /\
    Report.capital_structure r =
      Report.holding (positions_end r) (capital_end r / positions_end r) /\
    capital_end r / positions_end r == close_price lst.
Proof.
  destruct (Wayne.simple_apply one_day 1000) as [r|e] eqn:E; [| vm_compute in E; discriminate].
  assert (Hp : ~ positions_end r == 0) by (vm_compute in E; inversion E; subst; vm_compute; discriminate).
  destruct (proj1 X5_holding_structure_last_close Wayne.simple_exit one_day 1000 r E Hp)
    as (lst & P).
  exists lst, r; split; [reflexivity | exact P].
Defined.

(** X6. [SimpleStrategy] ends without a position when its last row has
    the exit signal and no [Buy]: [wayne] (exit on [not Buy]) whenever the
    last row has no [Buy]; [road_to_billions] (exit on [Sell]) when the
    last row has [Sell] and no [Buy]. *)
Theorem X6_simple_ends_flat exit_signal data c r lst :
  Simple.apply exit_signal data c = Ok r -> iloc_last data = Ok lst ->
  exit_signal lst = true -> buy lst = false -> positions_end r == 0.
Proof.
  intros H El He Hb; apply ApplyFacts.simple_Ok in H as (s & E & -> & _); simpl.
  destruct (iloc_last_split data lst El) as (l & ->).
  rewrite foldM_app in E; apply bind_Ok in E as (s1 & _ & E); simpl in E.
  apply bind_Ok in E as (s2 & E & H); inversion H; subst s2.
  unfold Simple.step in E; apply bind_Ok in E as (s3 & T & R).
  apply SimpleSteps.record_spec in R as (_ & _ & _ & P & _).
  rewrite P; unfold Simple.trade in T; rewrite Hb, He in T.
  destruct (py_eq (Simple.positions s1) 0) eqn:Z0; simpl in T; inversion T; subst; simpl;
    [py_facts; exact Z0 | reflexivity].
Qed.

Lemma X6_simple_ends_flat_witness :
  exists r, Wayne.simple_apply entry_then_dip 1000 = Ok r /\ positions_end r == 0.
Proof.
  eexists; split; [reflexivity|].
  apply (X6_simple_ends_flat Wayne.simple_exit entry_then_dip 1000 _ dip_bar);
    reflexivity.
Defined.

(** ** The stops of the single-resolution trailing stop *)

(** X7. In the single-resolution [TrailingStopStrategy] (with
    [stop_loss_pct <= 1], [trailing_stop_pct >= 0] and positive prices),
    from one row to the next while a position is held, neither the
    stop-loss nor the trailing stop ever goes down. *)
Theorem X7_trailing_stops_ratchet slp tsp data c sts :
  slp <= 1 -> 0 <= tsp -> Forall positive_prices data ->
  trace (Wayne.Trailing.step slp tsp) (Wayne.Trailing.init c) data = Ok sts ->
  Sorted (fun a b => ~ Wayne.Trailing.positions a == 0 -> ~ Wayne.Trailing.positions b == 0 ->
            Wayne.Trailing.stop_loss a <= Wayne.Trailing.stop_loss b /\
            Wayne.Trailing.trailing_stop a <= Wayne.Trailing.trailing_stop b)
    (Wayne.Trailing.init c :: sts).
Proof.
  intros Hs Ht Hd H.
  refine (trace_sorted _
    (fun s => Wayne.Trailing.positions s == 0 \/ exists ref, 0 <= ref /\
       Wayne.Trailing.stop_loss s == ref * (1 - slp) /\
       Wayne.Trailing.trailing_stop s == ref * (1 + tsp))
    positive_prices _ _ data _ sts _ Hd H).
  - intros s r s' HI Hr E; exact (TrailingStops.step_stops slp tsp Hs Ht s r s' HI Hr E).
  - left; reflexivity.
Qed.

Lemma X7_trailing_stops_ratchet_witness :
  exists sts,
    trace (Wayne.Trailing.step 0.032 0.001) (Wayne.Trailing.init 1000)
      ExtraSamples.ratchet_days = Ok sts /\
    Sorted (fun a b => ~ Wayne.Trailing.positions a == 0 -> ~ Wayne.Trailing.positions b == 0 ->
              Wayne.Trailing.stop_loss a <= Wayne.Trailing.stop_loss b /\
              Wayne.Trailing.trailing_stop a <= Wayne.Trailing.trailing_stop b)
      (Wayne.Trailing.init 1000 :: sts).
Proof.
  eexists; split; [reflexivity|].
  apply (X7_trailing_stops_ratchet 0.032 0.001 ExtraSamples.ratchet_days 1000);
    [lra | lra | | reflexivity].
  repeat (apply Forall_cons || apply Forall_nil);
    unfold positive_prices; simpl; split_and; reflexivity.
Defined.

(** ** [InvestResult.max] and [InvestResult.min] *)

(** X8. [max] and [min] of an [InvestResult] raise ([None]) exactly when
    its capital curve is empty; otherwise [max] is a point of the curve
    that no point exceeds, and [min] a point of the curve that no point
    is below. *)
Theorem X8_report_max_min r :
  (Report.max r = None <-> capital_curve r = []) /\
  (forall m, Report.max r = Some m ->
     In m (capital_curve r) /\ Forall (fun y => y <= m) (capital_curve r)) /\
  (Report.min r = None <-> capital_curve r = []) /\
  (forall m, Report.min r = Some m ->
     In m (capital_curve r) /\ Forall (fun y => m <= y) (capital_curve r)).
Proof.
  unfold Report.max, Report.min.
  destruct (py_list_max_spec (capital_curve r)) as [A B].
  destruct (py_list_min_spec (capital_curve r)) as [C D].
  split_and; assumption.
Qed.

Lemma X8_report_max_min_witness :
  exists m m', Report.max (mkInvestResult 1000 900 0 0 0 [1000; 1100; 900]) = Some m /\
    (In m [1000; 1100; 900] /\ Forall (fun y => y <= m) [1000; 1100; 900]) /\
    Report.min (mkInvestResult 1000 900 0 0 0 [1000; 1100; 900]) = Some m' /\
    (In m' [1000; 1100; 900] /\ Forall (fun y => m' <= y) [1000; 1100; 900]).
Proof.
  do 2 eexists; split; [reflexivity|].
  split; [apply (proj1 (proj2 (X8_report_max_min
                               (mkInvestResult 1000 900 0 0 0 [1000; 1100; 900]))));
          reflexivity|].
  split; [reflexivity|].
  apply (proj2 (proj2 (proj2 (X8_report_max_min
                               (mkInvestResult 1000 900 0 0 0 [1000; 1100; 900])))));
    reflexivity.
Defined.

(** X9. On the results of [SimpleStrategy] and of the single-resolution
    [TrailingStopStrategy], [max] and [min] (read by [_print_report])
    raise exactly when the data frame is empty; on a result of
    [NoStrategy] they never raise. *)
Theorem X9_report_extrema_defined :
  (forall exit_signal data c r, Simple.apply exit_signal data c = Ok r ->
     (Report.max r = None <-> data = []) /\ (Report.min r = None <-> data = [])) /\
  (forall slp tsp data c r, Wayne.Trailing.apply slp tsp data c = Ok r ->
     (Report.max r = None <-> data = []) /\ (Report.min r = None <-> data = [])) /\
  (forall data c r, NoStrategy.apply data c = Ok r ->
     Report.max r <> None /\ Report.min r <> None).
Proof.
  assert (K : forall (r : InvestResult) (data : list Row),
            length (capital_curve r) = length data ->
            (Report.max r = None <-> data = []) /\ (Report.min r = None <-> data = [])).
  { intros r data L; unfold Report.max, Report.min.
    rewrite (proj1 (py_list_max_spec _)), (proj1 (py_list_min_spec _)).
    rewrite <- !length_zero_iff_nil, L; split; reflexivity. }
  split_and.
  - intros e data c r H; apply K; exact (ApplyFacts.simple_length e data c r H).
  - intros slp tsp data c r H; apply K; exact (ApplyFacts.trailing_length slp tsp data c r H).
  - intros data c r H.
    assert (Hne : data <> []) by (intros ->; apply NoStrategySteps.apply_spec in H
                                    as (s0 & _ & _ & E0 & _); discriminate).
    destruct (K r data (ApplyFacts.no_length data c r H)) as [A B].
    split; [rewrite A | rewrite B]; exact Hne.
Qed.

Lemma X9_report_extrema_defined_witness :
  (exists r, Wayne.simple_apply [] 1000 = Ok r /\ Report.max r = None) /\
  (exists r, Wayne.Trailing.apply 0.032 0.001 [] 1000 = Ok r /\ Report.min r = None) /\
  (exists r, NoStrategy.apply entry_then_dip 1000 = Ok r /\ Report.max r <> None).
Proof.
  split_and.
  - eexists; split; [reflexivity|].
    apply (proj2 (proj1 (proj1 X9_report_extrema_defined Wayne.simple_exit [] 1000 _
                           eq_refl))); reflexivity.
  - eexists; split; [reflexivity|].
    apply (proj2 (proj2 (proj1 (proj2 X9_report_extrema_defined) 0.032 0.001 [] 1000 _
                           eq_refl))); reflexivity.
  - destruct (NoStrategy.apply entry_then_dip 1000) as [r|e] eqn:E;
      [| vm_compute in E; discriminate].
    exists r; split; [reflexivity|].
    exact (proj1 (proj2 (proj2 X9_report_extrema_defined) entry_then_dip 1000 r E)).
Defined.

(** ** The table of [evaluate_symbols] *)

(** X10. The table printed by [evaluate_symbols] has [min 5 n] rows, [n]
    the number of eligible coins (not legal money, trading, not USDT); its
    profits decrease down the table; every row is
    ([coin + "USDT"], profit of the backtest of that symbol) for an
    eligible coin; and every eligible coin is in the table unless the
    table has 5 rows, each at least as profitable as that coin. *)
Theorem X10_table_top_five em coins :
  length (Evaluate.table_rows em coins) = Nat.min 5 (length (filter Evaluate.eligible coins)) /\
  Sorted (fun a b => snd b <= snd a) (Evaluate.table_rows em coins) /\
  (forall row, In row (Evaluate.table_rows em coins) ->
     exists ci, In ci coins /\ Evaluate.eligible ci = true /\
       row = ((Evaluate.coin ci ++ "USDT")%string,
              profit (em (Evaluate.coin ci ++ "USDT")%string))) /\
  (forall ci, In ci coins -> Evaluate.eligible ci = true ->
     In ((Evaluate.coin ci ++ "USDT")%string, profit (em (Evaluate.coin ci ++ "USDT")%string))
        (Evaluate.table_rows em coins) \/
     (length (Evaluate.table_rows em coins) = 5%nat /\
      Forall (fun row => profit (em (Evaluate.coin ci ++ "USDT")%string) <= snd row)
        (Evaluate.table_rows em coins))).
Proof.
  unfold Evaluate.table_rows.
  set (g := fun res : string * InvestResult => (fst res, profit (snd res))).
  set (l := Ranking.sort_desc (Evaluate.collect em coins)).
  assert (Hperm : Permutation l (Evaluate.collect em coins)) by apply EvaluateFacts.sort_perm.
  assert (Hsort : Sorted RankingOrder.desc l) by apply EvaluateFacts.sort_sorted.
  assert (Hss : StronglySorted RankingOrder.desc (firstn 5 l ++ skipn 5 l))
    by (rewrite firstn_skipn; apply Sorted_StronglySorted; [exact RankingFacts.desc_trans | exact Hsort]).
  split_and.
  - rewrite length_map, length_firstn, (Permutation_length Hperm), EvaluateFacts.collect_length.
    reflexivity.
  - apply EvaluateFacts.Sorted_map, EvaluateFacts.Sorted_firstn; exact Hsort.
  - intros row Hr; apply in_map_iff in Hr as (x & <- & Hx).
    assert (Hl : In x l) by (rewrite <- (firstn_skipn 5 l); apply in_or_app; left; exact Hx).
    apply (Permutation_in _ Hperm), EvaluateFacts.collect_In in Hl as (ci & Hin & He & ->).
    exists ci; split_and; [exact Hin | exact He | reflexivity].
  - intros ci Hin He.
    set (name := (Evaluate.coin ci ++ "USDT")%string).
    assert (Hl : In (name, em name) l).
    { apply (Permutation_in _ (Permutation_sym Hperm)), EvaluateFacts.collect_In.
      exists ci; split_and; [exact Hin | exact He | reflexivity]. }
    rewrite <- (firstn_skipn 5 l) in Hl; apply in_app_or in Hl as [Hl|Hl].
    + left; apply (in_map g) in Hl; exact Hl.
    + right; split.
      * assert (L : (0 < length (skipn 5 l))%nat) by (destruct (skipn 5 l); [destruct Hl | simpl; lia]).
        rewrite length_skipn in L; rewrite length_map, length_firstn; lia.
      * apply Forall_forall; intros row Hr; apply in_map_iff in Hr as (y & <- & Hy).
        exact (EvaluateFacts.StronglySorted_app_between _ _ _ _ _ Hss Hy Hl).
Qed.

Lemma X10_table_top_five_witness :
  exists em,
    Evaluate.table_rows em
      [Evaluate.mkCoinInfo "BTC" false true; Evaluate.mkCoinInfo "EUR" true true;
       Evaluate.mkCoinInfo "USDT" false true] = [("BTCUSDT"%string, 0)] /\
    (In ("BTCUSDT"%string, profit (em "BTCUSDT"%string))
       (Evaluate.table_rows em
          [Evaluate.mkCoinInfo "BTC" false true; Evaluate.mkCoinInfo "EUR" true true;
           Evaluate.mkCoinInfo "USDT" false true]) \/
     (length (Evaluate.table_rows em
          [Evaluate.mkCoinInfo "BTC" false true; Evaluate.mkCoinInfo "EUR" true true;
           Evaluate.mkCoinInfo "USDT" false true]) = 5%nat /\
      Forall (fun row => profit (em "BTCUSDT"%string) <= snd row)
        (Evaluate.table_rows em
          [Evaluate.mkCoinInfo "BTC" false true; Evaluate.mkCoinInfo "EUR" true true;
           Evaluate.mkCoinInfo "USDT" false true]))).
Proof.
  exists (fun _ => flat_result); split; [reflexivity|].
  apply (proj2 (proj2 (proj2 (X10_table_top_five (fun _ => flat_result)
    [Evaluate.mkCoinInfo "BTC" false true; Evaluate.mkCoinInfo "EUR" true true;
     Evaluate.mkCoinInfo "USDT" false true]))) (Evaluate.mkCoinInfo "BTC" false true));
    [left; reflexivity | reflexivity].
Defined.

(** ** The download loop *)

(** X11. When [get_day_hour_data] returns, it returns the daily frame
    unchanged, and an hourly frame that starts with the first page
    (requested at the oldest daily open time) and whose last open time is
    not before the last daily open time. *)
Theorem X11_download_hours_cover_days raw fuel kd d h :
  Download.get_day_hour_data raw fuel kd = Some (Ok (d, h)) ->
  d = kd /\
  exists first ext ld lh, iloc_first kd = Ok first /\ h = raw (open_time first) ++ ext /\
    iloc_last kd = Ok ld /\ iloc_last h = Ok lh /\ (open_time ld <= open_time lh)%Z.
Proof.
  unfold Download.get_day_hour_data; intros H.
  destruct (iloc_first kd) as [first|e] eqn:Ef; [|discriminate].
  destruct (Download.extend_hours raw fuel kd (raw (open_time first))) as [[hh|e]|] eqn:E;
    inversion H; subst.
  apply DownloadFacts.extend_hours_Ok in E as ((ext & ->) & (ld & lh & Ed & Eh & L)).
  split; [reflexivity|]; exists first, ext, ld, lh; split_and; auto.
Qed.

Lemma X11_download_hours_cover_days_witness :
  exists h,
    Download.get_day_hour_data ExtraSamples.hour_page 5%nat ExtraSamples.two_days
      = Some (Ok (ExtraSamples.two_days, h)) /\
    ExtraSamples.two_days = ExtraSamples.two_days /\
    exists first ext ld lh, iloc_first ExtraSamples.two_days = Ok first /\
      h = ExtraSamples.hour_page (open_time first) ++ ext /\
      iloc_last ExtraSamples.two_days = Ok ld /\ iloc_last h = Ok lh /\
      (open_time ld <= open_time lh)%Z.
Proof.
  eexists; split; [reflexivity|].
  eapply (X11_download_hours_cover_days ExtraSamples.hour_page 5%nat ExtraSamples.two_days);
    reflexivity.
Defined.

(** X12. [get_day_hour_data] raises [IndexError] on an empty daily frame,
    and on a non-empty one when the first hourly page is empty. It returns
    exactly when its [while] loop, started on the first hourly page,
    does; one iteration appends the page requested one hour after the
    last hourly kline while that kline opens before the last daily one;
    and from any hourly frame whose last kline opens before the last
    daily one, when the page requested one hour after it is empty, the
    loop never ends. *)
Theorem X12_download_errors_and_stall :
  (forall raw fuel, Download.get_day_hour_data raw fuel [] = Some (Err IndexError)) /\
  (forall raw fuel kd first, iloc_first kd = Ok first -> raw (open_time first) = [] ->
     (0 < fuel)%nat -> Download.get_day_hour_data raw fuel kd = Some (Err IndexError)) /\
  (forall raw fuel kd first, iloc_first kd = Ok first ->
     (Download.get_day_hour_data raw fuel kd = None <->
      Download.extend_hours raw fuel kd (raw (open_time first)) = None)) /\
  (forall raw fuel kd kh ld lh, iloc_last kd = Ok ld -> iloc_last kh = Ok lh ->
     (open_time lh < open_time ld)%Z ->
     Download.extend_hours raw (S fuel) kd kh =
     Download.extend_hours raw fuel kd (kh ++ raw (open_time lh + 3600000)%Z)) /\
  (forall raw kd kh ld lh, iloc_last kd = Ok ld -> iloc_last kh = Ok lh ->
     (open_time lh < open_time ld)%Z -> raw (open_time lh + 3600000)%Z = [] ->
     forall fuel, Download.extend_hours raw fuel kd kh = None).
Proof.
  split_and.
  - intros raw fuel; reflexivity.
  - intros raw fuel kd first Ef Hr Hf; unfold Download.get_day_hour_data.
    rewrite Ef; cbv beta iota zeta; rewrite Hr.
    destruct fuel as [|fuel]; [lia|].
    destruct kd as [|r0 rest]; [discriminate|].
    cbn [Download.extend_hours]; rewrite iloc_last_cons; reflexivity.
  - intros raw fuel kd first Ef; unfold Download.get_day_hour_data.
    rewrite Ef; cbv beta iota zeta.
    destruct (Download.extend_hours raw fuel kd (raw (open_time first))) as [[h|e]|];
      split; intros H; try reflexivity; discriminate.
  - intros raw fuel kd kh ld lh Ed Eh L; cbn [Download.extend_hours].
    rewrite Ed, Eh; cbn [bind]; apply Z.ltb_lt in L; rewrite L; reflexivity.
  - intros raw kd kh ld lh Ed Eh L Hraw fuel.
    exact (DownloadFacts.extend_hours_stall raw kd ld lh Ed L Hraw fuel kh Eh).
Qed.

Lemma X12_download_errors_and_stall_witness :
  Download.get_day_hour_data (fun _ => []) 1%nat ExtraSamples.two_days = Some (Err IndexError) /\
  (forall fuel,
     Download.get_day_hour_data ExtraSamples.first_page_only fuel ExtraSamples.two_days = None).
Proof.
  destruct X12_download_errors_and_stall as (_ & H2 & H3 & _ & H5); split.
  - apply (H2 (fun _ => []) 1%nat ExtraSamples.two_days (bar 0 100 100 100 100 true));
      [reflexivity | reflexivity | lia].
  - intros fuel.
    apply (proj2 (H3 ExtraSamples.first_page_only fuel ExtraSamples.two_days
                     (bar 0 100 100 100 100 true) eq_refl)).
    apply (H5 ExtraSamples.first_page_only ExtraSamples.two_days _
             (bar 7200000 100 100 100 100 false) (bar 0 100 100 100 100 false));
      reflexivity.
Defined.

(** ** The order generators *)

(** X13. When the sell threshold is not above the buy threshold (as in
    [earn_money]: RSI 82 / 20, MACD 0 / -1), no row of the EMA/RSI or of
    the MACD generator is both [Buy] and [Sell]. A NaN RSI makes both
    [Buy] and [Sell] of the EMA/RSI generator false; a NaN EMA makes its
    [Buy] false ([Sell] reads the RSI only); a NaN MACD difference makes
    both [Buy] and [Sell] of the MACD generator false. *)
Theorem X13_buy_sell_exclusive rbt rst mbt mst :
  rst <= rbt -> mst <= mbt ->
  (forall close ema rsi,
     Signals.ema_rsi_buy close ema rsi rbt && Signals.ema_rsi_sell rsi rst = false) /\
  (forall macd_diff,
     Signals.macd_buy macd_diff mbt && Signals.macd_sell macd_diff mst = false) /\
  (forall close ema,
     Signals.ema_rsi_buy close ema None rbt = false /\ Signals.ema_rsi_sell None rst = false) /\
  (forall close rsi, Signals.ema_rsi_buy close None rsi rbt = false) /\
  (Signals.macd_buy None mbt = false /\ Signals.macd_sell None mst = false).
Proof.
  intros H1 H2; split_and.
  - intros close [e|] [x|]; unfold Signals.ema_rsi_buy, Signals.ema_rsi_sell;
      cbn [Signals.nan_gt Signals.nan_lt]; rewrite ?andb_false_r; try reflexivity.
    destruct (py_lt e close); cbn [andb]; [|reflexivity].
    destruct (py_lt rbt x) eqn:A; [|reflexivity].
    destruct (py_lt x rst) eqn:B; [|reflexivity].
    py_facts; exfalso; lra.
  - intros [x|]; unfold Signals.macd_buy, Signals.macd_sell; cbn [Signals.nan_gt Signals.nan_lt];
      [|reflexivity].
    destruct (py_lt mbt x) eqn:A; [|reflexivity].
    destruct (py_lt x mst) eqn:B; [|reflexivity].
    py_facts; exfalso; lra.
  - intros close ema; split; [|reflexivity].
    unfold Signals.ema_rsi_buy; cbn [Signals.nan_gt]; apply andb_false_r.
  - intros close rsi; reflexivity.
  - reflexivity.
  - reflexivity.
Qed.

Lemma X13_buy_sell_exclusive_witness :
  (forall close ema rsi,
     Signals.ema_rsi_buy close ema rsi 82 && Signals.ema_rsi_sell rsi 20 = false) /\
  (forall macd_diff, Signals.macd_buy macd_diff 0 && Signals.macd_sell macd_diff (-1) = false) /\
  (forall close ema,
     Signals.ema_rsi_buy close ema None 82 = false /\ Signals.ema_rsi_sell None 20 = false) /\
  (forall close rsi, Signals.ema_rsi_buy close None rsi 82 = false) /\
  (Signals.macd_buy None 0 = false /\ Signals.macd_sell None (-1) = false).
Proof. apply (X13_buy_sell_exclusive 82 20 0 (-1)); lra. Defined.

(** ** Entries of the dual-resolution trailing stop *)

(** X14. In [road_to_billions]' [TrailingStopStrategy], a position is
    opened on an hourly row only when the row's stop-loss phase leaves
    the state flat (it was flat already, or the stop-loss has just sold
    the position on this very row), the row's open time equals that of
    the daily row under the cursor, that daily row has [Buy] and there is
    cash: all the cash is spent at the daily close (less the 0.1 % fee),
    the stop-loss is set to that close x (1 - stop_loss_pct) and the
    cursor moves on. *)
Theorem X14_dual_entry_on_matched_day pct days s row s' :
  RoadToBillions.Dual.positions (RoadToBillions.Dual.stop_phase pct s row) == 0 ->
  RoadToBillions.Dual.step pct days s row = Ok s' ->
  ~ RoadToBillions.Dual.positions s' == 0 ->
  exists d, nth_error days (RoadToBillions.Dual.day s) = Some d /\
    open_time d = open_time row /\ buy d = true /\
    0 < RoadToBillions.Dual.capital (RoadToBillions.Dual.stop_phase pct s row) /\
    RoadToBillions.Dual.positions s' =
      RoadToBillions.Dual.capital (RoadToBillions.Dual.stop_phase pct s row)
        / close_price d * 0.999 /\
    RoadToBillions.Dual.stop_loss s' = close_price d * (1 - pct) /\
    RoadToBillions.Dual.capital s' = 0 /\
    RoadToBillions.Dual.day s' = S (RoadToBillions.Dual.day s).
Proof.
  intros Hz H Hn.
  destruct (DualCursor.stop_phase_day pct s row) as [Dy _].
  set (s1 := RoadToBillions.Dual.stop_phase pct s row) in *.
  assert (Z0 : py_eq (RoadToBillions.Dual.positions s1) 0 = true) by (apply py_eq_true; exact Hz).
  unfold RoadToBillions.Dual.step in H; fold s1 in H.
  unfold RoadToBillions.Dual.day_phase in H; rewrite Dy in H.
  destruct (nth_error days (RoadToBillions.Dual.day s)) as [d|] eqn:N;
    [|inversion H; subst; contradiction].
  destruct (Z.eqb (open_time row) (open_time d)) eqn:T; [|inversion H; subst; contradiction].
  apply bind_Ok in H as (s2 & E2 & H).
  unfold RoadToBillions.Dual.day_record in H; apply bind_Ok in H as (x & _ & H).
  inversion H; subst s'; clear H; cbn in Hn |- *.
  unfold RoadToBillions.Dual.day_entry in E2; rewrite Z0 in E2.
  destruct (buy d && py_lt 0 (RoadToBillions.Dual.capital s1)) eqn:B;
    [|inversion E2; subst; contradiction].
  py_facts.
  destruct (py_div (RoadToBillions.Dual.capital s1) (close_price d)) as [p|e] eqn:Dv;
    cbn [bind] in E2; [|discriminate].
  unfold py_div in Dv; destruct (py_eq (close_price d) 0); inversion Dv; subst p.
  inversion E2; subst s2; cbn.
  apply Z.eqb_eq in T.
  exists d; split_and; auto; rewrite <- Dy; reflexivity.
Qed.

(** The re-entry path: [dual_long] is sold at its stop-loss on
    [reentry_bar] and buys again on the same row. *)
Lemma X14_dual_entry_on_matched_day_witness :
  ~ RoadToBillions.Dual.positions dual_long == 0 /\
  exists s', RoadToBillions.Dual.step 0.2 ExtraSamples.reentry_days dual_long
               ExtraSamples.reentry_bar = Ok s' /\
    exists d, nth_error ExtraSamples.reentry_days (RoadToBillions.Dual.day dual_long) = Some d /\
    open_time d = open_time ExtraSamples.reentry_bar /\ buy d = true /\
    0 < RoadToBillions.Dual.capital
          (RoadToBillions.Dual.stop_phase 0.2 dual_long ExtraSamples.reentry_bar) /\
    RoadToBillions.Dual.positions s' =
      RoadToBillions.Dual.capital
        (RoadToBillions.Dual.stop_phase 0.2 dual_long ExtraSamples.reentry_bar)
        / close_price d * 0.999 /\
    RoadToBillions.Dual.stop_loss s' = close_price d * (1 - 0.2) /\
    RoadToBillions.Dual.capital s' = 0 /\
    RoadToBillions.Dual.day s' = S (RoadToBillions.Dual.day dual_long).
Proof.
  split; [intros E; vm_compute in E; discriminate|].
  eexists; split; [reflexivity|].
  apply (X14_dual_entry_on_matched_day 0.2 ExtraSamples.reentry_days dual_long
           ExtraSamples.reentry_bar);
    [vm_compute; reflexivity | reflexivity | intros E; vm_compute in E; discriminate].
Defined.

(** ** [InvestResult.profit_percentage] *)

(** X15. On the results of [SimpleStrategy], of the single-resolution
    [TrailingStopStrategy] and of [NoStrategy] over positive prices,
    [profit_percentage] raises nothing and is never below -100: the
    final capital is never negative. *)
Theorem X15_loss_capped :
  (forall exit_signal data c r, Forall positive_prices data ->
     Simple.apply exit_signal data c = Ok r ->
     exists p, Report.profit_percentage r = Ok p /\ -100 <= p) /\
  (forall slp tsp data c r, Forall positive_prices data ->
     Wayne.Trailing.apply slp tsp data c = Ok r ->
     exists p, Report.profit_percentage r = Ok p /\ -100 <= p) /\
  (forall data c r, Forall positive_prices data -> NoStrategy.apply data c = Ok r ->
     exists p, Report.profit_percentage r = Ok p /\ -100 <= p).
Proof.
  split_and.
  - intros e data c r Hd H; apply ApplyFacts.simple_Ok in H as (s & E & -> & Hc).
    assert (I : SimpleInv.Inv s /\ 0 <= Simple.current_capital s).
    { refine (foldM_inv_rows (Simple.step e)
                (fun s => SimpleInv.Inv s /\ 0 <= Simple.current_capital s) positive_prices
                _ data (Simple.init c) s _ Hd E).
      - intros s0 r0 s1 [Hi _] Hr Es.
        destruct (SimpleFacts.simple_step_ok e s0 r0 Hi Hr) as (s2 & E2 & I2 & _).
        rewrite Es in E2; inversion E2; subst s2; split; [exact I2|].
        unfold Simple.step in Es; apply bind_Ok in Es as (t & _ & Rt).
        apply SimpleSteps.record_spec in Rt as (_ & _ & _ & P & Cp & X).
        destruct I2 as (_ & _ & Hp & Hcap & _); rewrite P in Hp; rewrite Cp in Hcap.
        rewrite X; destruct (py_eq (Simple.positions t) 0); [exact Hcap|].
        destruct Hr as (_ & _ & _ & Hcl); apply Qmult_le_0_compat; lra.
      - split; [apply SimpleFacts.simple_init_Inv; exact Hc | simpl; lra]. }
    rewrite profit_percentage_fields; apply profit_percentage_floor; [exact Hc | apply I].
  - intros slp tsp data c r Hd H; apply ApplyFacts.trailing_Ok in H as (s & E & -> & Hc).
    assert (I : TrailingInv.Inv s /\ 0 <= Wayne.Trailing.current_capital s).
    { refine (foldM_inv_rows (Wayne.Trailing.step slp tsp)
                (fun s => TrailingInv.Inv s /\ 0 <= Wayne.Trailing.current_capital s)
                positive_prices _ data (Wayne.Trailing.init c) s _ Hd E).
      - intros s0 r0 s1 [Hi _] Hr Es.
        destruct (TrailingFacts.trailing_step_ok slp tsp s0 r0 Hi Hr) as (s2 & E2 & I2 & _).
        rewrite Es in E2; inversion E2; subst s2; split; [exact I2|].
        unfold Wayne.Trailing.step in Es; apply bind_Ok in Es as (t & _ & Rt).
        apply TrailingSteps.trailing_record_spec in Rt as (_ & _ & _ & P & Cp & _ & _ & X).
        destruct I2 as (_ & _ & Hp & Hcap & _); rewrite P in Hp; rewrite Cp in Hcap.
        rewrite X; destruct (py_eq (Wayne.Trailing.positions t) 0); [exact Hcap|].
        destruct Hr as (_ & _ & _ & Hcl); apply Qmult_le_0_compat; lra.
      - split; [apply TrailingFacts.trailing_init_Inv; exact Hc | simpl; lra]. }
    rewrite profit_percentage_fields; apply profit_percentage_floor; [exact Hc | apply I].
  - intros data c r Hd H.
    apply NoStrategySteps.apply_spec in H as (s0 & s & lst & E0 & E & El & Hc & ->).
    apply NoStrategySteps.enter_spec in E0 as (first & Ef & _ & ->).
    apply NoStrategyCurve.fold_curve in E as [P _]; simpl in P.
    rewrite Forall_forall in Hd.
    assert (Hf : 0 < close_price first).
    { destruct data as [|r0 rest]; [discriminate|]; inversion Ef; subst.
      apply (Hd first (or_introl eq_refl)). }
    assert (Hl : 0 < close_price lst).
    { destruct (iloc_last_split data lst El) as (l & ->).
      apply (Hd lst), in_or_app; right; left; reflexivity. }
    rewrite profit_percentage_fields; apply profit_percentage_floor; [exact Hc|]; simpl.
    rewrite P.
    assert (0 < c / close_price first) by (apply Qdiv_pos; assumption).
    apply Qmult_le_0_compat; [|lra]; apply Qmult_le_0_compat; [|lra].
    apply Qmult_le_0_compat; lra.
Qed.

Lemma X15_loss_capped_witness :
  (exists r, Wayne.simple_apply entry_then_dip 1000 = Ok r /\
     exists p, Report.profit_percentage r = Ok p /\ -100 <= p) /\
  (exists r, Wayne.Trailing.apply 0.032 0.001 entry_then_dip 1000 = Ok r /\
     exists p, Report.profit_percentage r = Ok p /\ -100 <= p) /\
  (exists r, NoStrategy.apply entry_then_dip 1000 = Ok r /\
     exists p, Report.profit_percentage r = Ok p /\ -100 <= p).
Proof.
  assert (Hd : Forall positive_prices entry_then_dip)
    by (repeat (apply Forall_cons || apply Forall_nil);
        unfold positive_prices; simpl; split_and; reflexivity).
  split_and.
  - destruct (Wayne.simple_apply entry_then_dip 1000) as [r|e] eqn:E;
      [| vm_compute in E; discriminate].
    exists r; split; [reflexivity|].
    exact (proj1 X15_loss_capped Wayne.simple_exit entry_then_dip 1000 r Hd E).
  - destruct (Wayne.Trailing.apply 0.032 0.001 entry_then_dip 1000) as [r|e] eqn:E;
      [| vm_compute in E; discriminate].
    exists r; split; [reflexivity|].
    exact (proj1 (proj2 X15_loss_capped) 0.032 0.001 entry_then_dip 1000 r Hd E).
  - destruct (NoStrategy.apply entry_then_dip 1000) as [r|e] eqn:E;
      [| vm_compute in E; discriminate].
    exists r; split; [reflexivity|].
    exact (proj2 (proj2 X15_loss_capped) entry_then_dip 1000 r Hd E).
Defined.

End Extras.
